(** * VidGoNerf web server: ClientService

    A shallow embedding of [webserver/internal/services/ClientService.go]
    and the properties of its access guard, its submission pipeline
    ([HandleIncomingVideo]) and its chunk-metadata engine
    ([GetNerfMetadata]).

    Conventions of the embedding:
    - Go's [int64] is a [Z] with the two's-complement wrap-around written
      out ([wrap64]); [int] is taken to be 64 bits wide (amd64/arm64).
    - Go's [(T, error)] results are values of [result T]; a function that
      only returns [error] returns [option error].
    - [map[string]V] is [gmap string V].
    - Calls on the injected services ([userManager], [sceneManager],
      [mqService]), on the operating system and on the ObjectID generator
      go through one interface, [Collaborators]; every such call is
      recorded, with its result, in a trace. *)

From Stdlib Require Import ZArith Lia List.
From Stdlib Require Import Strings.String Strings.Ascii Strings.Byte.
From stdpp Require Import base option list gmap strings fin_maps.

Local Open Scope Z_scope.
Local Open Scope string_scope.

(** ** Machine integers *)

Module Int64.

Definition min_int : Z := - 2 ^ 63.
Definition max_int : Z := 2 ^ 63 - 1.

Definition in_range (z : Z) : Prop := min_int <= z <= max_int.

(** Two's-complement reduction of a mathematical integer to [int64]. *)
Definition wrap64 (z : Z) : Z := (z + 2 ^ 63) mod 2 ^ 64 - 2 ^ 63.

Definition add (a b : Z) : Z := wrap64 (a + b).
Definition sub (a b : Z) : Z := wrap64 (a - b).
(** Go's [/] truncates toward zero, [%] takes the sign of the dividend. *)
Definition div (a b : Z) : Z := wrap64 (Z.quot a b).
Definition rem (a b : Z) : Z := Z.rem a b.

(** The conversion [int(x)] of an [int64] on a platform with 64-bit [int]. *)
Definition to_int (a : Z) : Z := wrap64 a.

End Int64.

(** ** Resource metadata *)

(** [type ResourceInfo struct]. *)
Record ResourceInfo : Type := mkResourceInfo {
  Exists : bool;
  Size : Z;
  Chunks : Z;
  LastChunkSize : Z
}.

(** [ResourceInfo{Exists: false}]: the remaining fields take Go's zero value. *)
Definition ResourceInfo_missing : ResourceInfo :=
  {| Exists := false; Size := 0; Chunks := 0; LastChunkSize := 0 |}.

(** The body of the [if fileInfo, err := os.Stat(path); err == nil] branch
    of [GetNerfMetadata], as a function of [fileInfo.Size()]. *)
Definition resourceInfo (fileSize : Z) : ResourceInfo :=
  let chunks :=
    Int64.div (Int64.sub (Int64.add fileSize (1024 * 1024)) 1) (1024 * 1024) in
  let lastChunkSize := Int64.rem fileSize (1024 * 1024) in
  let lastChunkSize :=
    if Z.eqb lastChunkSize 0 then 1024 * 1024 else lastChunkSize in
  {| Exists := true;
     Size := fileSize;
     Chunks := Int64.to_int chunks;
     LastChunkSize := lastChunkSize |}.

(** ** Errors and results *)

(** Go [error] values.  [ErrUserNoAccess] is the sentinel
    [user.ErrUserNoAccess]; [Errorf] is an error made by [fmt.Errorf]
    from a constant message; [Wrapf msg err] is
    [fmt.Errorf(msg + ": %w", err)]; [ErrExternal] stands for any other
    error handed back by a collaborator. *)
Inductive error : Type :=
| ErrUserNoAccess
| Errorf (msg : string)
| Wrapf (msg : string) (err : error)
| ErrExternal (msg : string).

(** A Go result pair [(T, error)]: [Err e] when the error is non-nil. *)
Inductive result (A : Type) : Type :=
| Ok (a : A)
| Err (e : error).
Arguments Ok {A} a.
Arguments Err {A} e.

Definition result_error {A} (r : result A) : option error :=
  match r with Ok _ => None | Err e => Some e end.

(** A Go [error] return read as a result without a value. *)
Definition of_error (o : option error) : result unit :=
  match o with None => Ok tt | Some e => Err e end.

(** ** Paths: the functions of [path/filepath] the service calls
    (Unix flavour: the separator is [/], there is no volume name). *)

Module filepath.

Definition Separator : ascii := "/"%char.
Definition IsPathSeparator (c : ascii) : bool := Ascii.eqb c Separator.

(** [Ext] scans [path] from its end, stops at the first separator and
    returns the suffix that starts at the first dot it meets.
    [ext_scan path] is [Some r] when that backwards loop returns [r]
    at an index inside [path], [None] when it runs past index 0. *)
Fixpoint ext_scan (path : string) : option string :=
  match path with
  | EmptyString => None
  | String c rest =>
      match ext_scan rest with
      | Some r => Some r
      | None =>
          if IsPathSeparator c then Some ""
          else if Ascii.eqb c "."%char then Some path
          else None
      end
  end.

Definition Ext (path : string) : string := default "" (ext_scan path).

(** The elements of a path: the pieces between separators. *)
Fixpoint split (path : string) : list string :=
  match path with
  | EmptyString => [""]
  | String c rest =>
      match split rest with
      | el :: els =>
          if IsPathSeparator c then "" :: el :: els
          else String c el :: els
      | [] => [String c ""]
      end
  end.

(** One round of the element loop of [Clean]; [out] holds the elements
    kept so far, last one first. *)
Definition clean_step (rooted : bool) (out : list string) (el : string)
  : list string :=
  if String.eqb el "" || String.eqb el "." then out
  else if String.eqb el ".." then
    match out with
    | top :: out' => if String.eqb top ".." then ".." :: out else out'
    | [] => if rooted then [] else [".."]
    end
  else el :: out.

Definition Clean (path : string) : string :=
  match path with
  | EmptyString => "."
  | String c _ =>
      let rooted := IsPathSeparator c in
      let out := rev (fold_left (clean_step rooted) (split path) []) in
      if rooted then String Separator (String.concat "/" out)
      else match out with
           | [] => "."
           | _ => String.concat "/" out
           end
  end.

(** [Join] drops leading empty elements, joins the rest with the
    separator and cleans the result. *)
Fixpoint Join (elem : list string) : string :=
  match elem with
  | [] => ""
  | e :: rest =>
      if String.eqb e "" then Join rest
      else Clean (String.concat "/" elem)
  end.

(** [Base]: strip trailing separators, keep the last element. *)
Fixpoint strip_trailing (path : string) : string :=
  match path with
  | EmptyString => ""
  | String c rest =>
      match strip_trailing rest with
      | EmptyString => if IsPathSeparator c then "" else String c ""
      | rest' => String c rest'
      end
  end.

Definition Base (path : string) : string :=
  match path with
  | EmptyString => "."
  | _ =>
      match strip_trailing path with
      | EmptyString => "/"
      | p => default "" (last (split p))
      end
  end.

End filepath.



(** ** ObjectIDs ([primitive.ObjectID], a [[12]byte]) and their hex form *)

Definition ObjectID : Type := list byte.

Definition hextable : string := "0123456789abcdef".

Definition hex_digit (n : N) : ascii :=
  default "0"%char (String.get (N.to_nat n) hextable).

(** [hex.EncodeToString]: two digits per byte, high nibble first. *)
Definition hex_byte (b : byte) (tail : string) : string :=
  let v := Byte.to_N b in
  String (hex_digit (N.shiftr v 4)) (String (hex_digit (N.land v 15)) tail).

Definition Hex (id : ObjectID) : string := fold_right hex_byte "" id.

(** ** Data model of the packages the service imports *)

(** [os.FileInfo], as far as the service reads it. *)
Record FileInfo : Type := mkFileInfo {
  Name : string;
  FileSize : Z          (* [Size()], an [int64] *)
}.

Module scene.

Record Video : Type := mkVideo { FilePath : string }.

Record NerfTrainingConfig : Type := mkNerfTrainingConfig {
  TrainingMode : string;
  OutputTypes : list string;
  SaveIterations : list Z;
  TotalIterations : Z
}.

(** The [NerfTrainingConfig] field is a pointer in Go; the embedding
    takes it to be non-nil, as [HandleIncomingVideo] writes it. *)
Record TrainingConfig : Type := mkTrainingConfig {
  nerfTrainingConfig : NerfTrainingConfig
}.

End scene.

Module common.

(** The uploaded file of a request ([req.File]), as far as the service
    uses it: what its [Stat()] and its [Open()] answer.  An opened upload
    is the byte stream it delivers. *)
Record UploadedFile : Type := mkUploadedFile {
  Stat : result FileInfo;
  Open : result (list byte)
}.

Record VideoUploadRequest : Type := mkVideoUploadRequest {
  File : UploadedFile;
  TrainingMode : string;
  OutputTypes : list string;
  SaveIterations : list Z;
  TotalIterations : Z;
  SceneName : string
}.

End common.

(** [os.ModePerm]. *)
Definition ModePerm : Z := 511.

(** ** Collaborators

    Everything the service reaches through its fields or through the
    standard library: the user store, the scene store, the queue, the
    file system, the ObjectID generator and the runtime's choice of an
    iteration order for [range] over a map.  Reads are functions of the
    store; writes return the new store next to their error. *)
Class Collaborators : Type := {
  FS : Type;          (* the file system *)
  DB : Type;          (* the persistence store behind both managers *)
  MQ : Type;          (* the message broker *)
  IDGen : Type;       (* the state of the ObjectID generator *)
  RT : Type;          (* the state of the runtime's map-iteration seed *)
  OsFile : Type;      (* an open [*os.File] *)
  User : Type;        (* [*user.User] *)
  Nerf : Type;        (* [*scene.Nerf], the artifact registry of a scene *)

  (* user.UserManager and user.User *)
  UserHasJobAccess : ObjectID -> ObjectID -> DB -> result bool;
  GetUserByID : ObjectID -> DB -> result User;
  UpdateUser : User -> DB -> option error * DB;
  AddScene : User -> string -> User;

  (* scene.SceneManager and scene.Nerf *)
  GetNerf : ObjectID -> DB -> result Nerf;
  GetTrainingConfig : ObjectID -> DB -> result scene.TrainingConfig;
  SetVideo : string -> scene.Video -> DB -> option error * DB;
  SetSceneName : string -> string -> DB -> option error * DB;
  SetTrainingConfig : string -> scene.TrainingConfig -> DB -> option error * DB;
  GetFilePathsForOutputType : Nerf -> string -> gmap string string;

  (* AMPQService *)
  PublishSfmJob :
    string -> scene.Video -> scene.TrainingConfig -> MQ -> option error * MQ;

  (* os and io *)
  os_Stat : string -> FS -> result FileInfo;
  os_MkdirAll : string -> Z -> FS -> option error * FS;
  os_Create : string -> FS -> result OsFile * FS;
  io_Copy : OsFile -> list byte -> FS -> result Z * FS;
  file_Close : OsFile -> FS -> option error * FS;

  (* primitive.NewObjectID *)
  NewObjectID : IDGen -> ObjectID * IDGen;

  (* the order in which one [range] visits the entries of a map *)
  range_order : RT -> gmap string string -> list (string * string) * RT;
  range_order_perm : forall r m, (range_order r m).1 ≡ₚ map_to_list m
}.

Section Service.

Context `{Env : Collaborators}.

(** *** The world outside the service *)

Record World : Type := mkWorld {
  w_fs : FS;
  w_db : DB;
  w_mq : MQ;
  w_gen : IDGen;
  w_rt : RT;
  w_log : list (string * error)     (* what the logger was given *)
}.

(** *** Calls

    One constructor per call the service makes on a collaborator,
    indexed by the type of the value the call returns. *)
Inductive Call : Type -> Type :=
| CUserHasJobAccess (userID sceneID : ObjectID) : Call bool
| CGetNerf (sceneID : ObjectID) : Call Nerf
| CGetTrainingConfig (sceneID : ObjectID) : Call scene.TrainingConfig
| COsStat (path : string) : Call FileInfo
| CFileStat (f : common.UploadedFile) : Call FileInfo
| CNewObjectID : Call ObjectID
| CMkdirAll (path : string) (perm : Z) : Call unit
| CCreate (path : string) : Call OsFile
| CFileOpen (f : common.UploadedFile) : Call (list byte)
| CCopy (dst : OsFile) (src : list byte) : Call Z
| CDstClose (dst : OsFile) : Call unit
| CSrcClose (src : list byte) : Call unit
| CSetVideo (jobID : string) (video : scene.Video) : Call unit
| CSetSceneName (jobID name : string) : Call unit
| CSetTrainingConfig (jobID : string) (config : scene.TrainingConfig)
    : Call unit
| CPublishSfmJob (jobID : string) (video : scene.Video)
    (config : scene.TrainingConfig) : Call unit
| CGetUserByID (userID : ObjectID) : Call User
| CUpdateUser (u : User) : Call unit
| CLogErrorf (format : string) (err : error) : Call unit.

Definition on_fs {A} (f : FS -> result A * FS) (w : World)
  : result A * World :=
  let '(r, fs') := f (w_fs w) in
  (r, mkWorld fs' (w_db w) (w_mq w) (w_gen w) (w_rt w) (w_log w)).

Definition on_db {A} (f : DB -> result A * DB) (w : World)
  : result A * World :=
  let '(r, db') := f (w_db w) in
  (r, mkWorld (w_fs w) db' (w_mq w) (w_gen w) (w_rt w) (w_log w)).

Definition on_mq {A} (f : MQ -> result A * MQ) (w : World)
  : result A * World :=
  let '(r, mq') := f (w_mq w) in
  (r, mkWorld (w_fs w) (w_db w) mq' (w_gen w) (w_rt w) (w_log w)).

(** A write that only reports an error. *)
Definition errw {S} (f : S -> option error * S) (s : S) : result unit * S :=
  let '(e, s') := f s in (of_error e, s').

(** What a call answers and what it does to the world. *)
Definition exec {A} (c : Call A) (w : World) : result A * World :=
  match c in Call T return result T * World with
  | CUserHasJobAccess userID sceneID =>
      (UserHasJobAccess userID sceneID (w_db w), w)
  | CGetNerf sceneID => (GetNerf sceneID (w_db w), w)
  | CGetTrainingConfig sceneID => (GetTrainingConfig sceneID (w_db w), w)
  | COsStat path => (os_Stat path (w_fs w), w)
  | CFileStat f => (common.Stat f, w)
  | CNewObjectID =>
      let '(id, g') := NewObjectID (w_gen w) in
      (Ok id, mkWorld (w_fs w) (w_db w) (w_mq w) g' (w_rt w) (w_log w))
  | CMkdirAll path perm => on_fs (errw (os_MkdirAll path perm)) w
  | CCreate path => on_fs (os_Create path) w
  | CFileOpen f => (common.Open f, w)
  | CCopy dst src => on_fs (io_Copy dst src) w
  | CDstClose dst => on_fs (errw (file_Close dst)) w
  | CSrcClose src => (Ok tt, w)
  | CSetVideo jobID video => on_db (errw (SetVideo jobID video)) w
  | CSetSceneName jobID name => on_db (errw (SetSceneName jobID name)) w
  | CSetTrainingConfig jobID config =>
      on_db (errw (SetTrainingConfig jobID config)) w
  | CPublishSfmJob jobID video config =>
      on_mq (errw (PublishSfmJob jobID video config)) w
  | CGetUserByID userID => (GetUserByID userID (w_db w), w)
  | CUpdateUser u => on_db (errw (UpdateUser u)) w
  | CLogErrorf format err =>
      (Ok tt, mkWorld (w_fs w) (w_db w) (w_mq w) (w_gen w) (w_rt w)
                (w_log w ++ [(format, err)])%list)
  end.

(** *** The trace *)

Inductive Entry : Type :=
| Called {A} (c : Call A) (r : result A).

Definition entry_error (e : Entry) : option error :=
  match e with Called _ r => result_error r end.

(** *** The monad of service code: state and early return on error *)

Record State : Type := mkState {
  world : World;
  trace : list Entry
}.

Definition M (A : Type) : Type := State -> result A * State.

Definition ret {A} (a : A) : M A := fun st => (Ok a, st).

(** [return ..., err]. *)
Definition fail {A} (e : error) : M A := fun st => (Err e, st).

(** Sequencing with Go's [if err != nil { return ..., err }]: the state
    reached when the error came back is the state returned. *)
Definition bind {A B} (m : M A) (k : A -> M B) : M B :=
  fun st =>
    match m st with
    | (Ok a, st') => k a st'
    | (Err e, st') => (Err e, st')
    end.

(** A call on a collaborator, recorded in the trace. *)
Definition call {A} (c : Call A) : M A :=
  fun st =>
    let '(r, w') := exec c (world st) in
    (r, mkState w' (trace st ++ [Called c r])%list).

(** A call whose error the caller inspects instead of returning it. *)
Definition attempt {A} (m : M A) : M (result A) :=
  fun st => let '(r, st') := m st in (Ok r, st').

(** [return ..., fmt.Errorf(msg + ": %w", err)] around [m]. *)
Definition wrap_error {A} (msg : string) (m : M A) : M A :=
  fun st =>
    match m st with
    | (Ok a, st') => (Ok a, st')
    | (Err e, st') => (Err (Wrapf msg e), st')
    end.

(** [defer cleanup] followed by the rest of the function body: the
    cleanup runs when the body returns, whatever it returns, and its
    own result is dropped. *)
Definition defer {A} (cleanup : M unit) (body : M A) : M A :=
  fun st => let '(r, st') := body st in (r, (cleanup st').2).

(** The entries of a map in the order this [range] visits them. *)
Definition range (m : gmap string string) : M (list (string * string)) :=
  fun st =>
    let w := world st in
    let '(l, rt') := range_order (w_rt w) m in
    (Ok l,
     mkState (mkWorld (w_fs w) (w_db w) (w_mq w) (w_gen w) rt' (w_log w))
             (trace st)).

(** A loop that updates a local variable of type [B] for each element. *)
Fixpoint for_each {A B} (l : list A) (body : B -> A -> M B) (b : B) : M B :=
  match l with
  | [] => ret b
  | a :: l' => bind (body b a) (for_each l' body)
  end.

End Service.

Declare Scope go_scope.
Delimit Scope go_scope with go.
Notation "x <- m ;; k" := (bind m (fun x => k))
  (at level 100, m at next level, right associativity) : go_scope.
Notation "'do' m ;; k" := (bind m (fun _ => k))
  (at level 100, m at next level, right associativity) : go_scope.

(** ** The service *)

(** [type NerfMetadata struct]. *)
Record NerfMetadata : Type := mkNerfMetadata {
  Resources : gmap string (gmap string ResourceInfo)
}.

(** The assignment [resources[ot][iteration] = info] on a map of maps
    whose entry for [ot] was made before. *)
Definition set_resource (ot iteration : string) (info : ResourceInfo)
    (resources : gmap string (gmap string ResourceInfo))
  : gmap string (gmap string ResourceInfo) :=
  <[ot := <[iteration := info]> (default ∅ (resources !! ot))]> resources.

Definition videosFolder : string := "data/raw/videos".

Section ClientService.

Context `{Env : Collaborators}.
Local Open Scope go_scope.

(** [verifyUserAccess]: [Ok tt] is Go's [nil]. *)
Definition verifyUserAccess (userID sceneID : ObjectID) : M unit :=
  authorized <- call (CUserHasJobAccess userID sceneID) ;;
  if negb authorized then fail ErrUserNoAccess
  else ret tt.

(** The inner loop body of [GetNerfMetadata] up to the assignment:
    [info] for one [path]. *)
Definition stat_resource (path : string) : M ResourceInfo :=
  st <- attempt (call (COsStat path)) ;;
  ret (match st with
       | Ok fileInfo => resourceInfo (FileSize fileInfo)
       | Err _ => ResourceInfo_missing
       end).

Definition GetNerfMetadata (userID sceneID : ObjectID) (outputType : string)
  : M NerfMetadata :=
  do verifyUserAccess userID sceneID ;;
  nerf <- call (CGetNerf sceneID) ;;
  config <- call (CGetTrainingConfig sceneID) ;;
  resources <-
    for_each (scene.OutputTypes (scene.nerfTrainingConfig config))
      (fun resources ot =>
         if String.eqb outputType "" || String.eqb outputType ot then
           let resources := <[ot := ∅]> resources in
           let filePaths := GetFilePathsForOutputType nerf ot in
           entries <- range filePaths ;;
           for_each entries
             (fun resources '(iteration, path) =>
                info <- stat_resource path ;;
                ret (set_resource ot iteration info resources))
             resources
         else ret resources)
      ∅ ;;
  ret {| Resources := resources |}.

(** The publish step of [HandleIncomingVideo]: a failed publish is
    logged before its error is returned. *)
Definition publish (jobID : string) (video : scene.Video)
    (config : scene.TrainingConfig) : M unit :=
  r <- attempt (call (CPublishSfmJob jobID video config)) ;;
  match r with
  | Ok _ => ret tt
  | Err err =>
      do call (CLogErrorf "Failed to publish SFM job: %v" err) ;;
      fail err
  end.

Definition HandleIncomingVideo (userID : ObjectID)
    (req : common.VideoUploadRequest) : M string :=
  (* Validate video file *)
  fileStat <- wrap_error "failed to get file stats"
                (call (CFileStat (common.File req))) ;;
  let fileName := Name fileStat in
  if String.eqb fileName "" then fail (Errorf "file not received") else
  let fileExt := filepath.Ext fileName in
  if negb (String.eqb fileExt ".mp4")
  then fail (Errorf "improper file extension") else
  oid <- call CNewObjectID ;;
  let jobID := Hex oid in
  (* Save video to file storage *)
  let videoName := jobID ++ ".mp4" in
  do call (CMkdirAll videosFolder ModePerm) ;;
  let videoFilePath := filepath.Join [videosFolder; videoName] in
  dst <- call (CCreate videoFilePath) ;;
  defer (call (CDstClose dst)) (
  src <- call (CFileOpen (common.File req)) ;;
  defer (call (CSrcClose src)) (
  do call (CCopy dst src) ;;
  (* Create video and training config *)
  let video := scene.mkVideo videoFilePath in
  let trainingConfig :=
    scene.mkTrainingConfig
      (scene.mkNerfTrainingConfig
         (common.TrainingMode req) (common.OutputTypes req)
         (common.SaveIterations req) (common.TotalIterations req)) in
  (* Save video to database and create config *)
  do call (CSetVideo jobID video) ;;
  do call (CSetSceneName jobID (common.SceneName req)) ;;
  do call (CSetTrainingConfig jobID trainingConfig) ;;
  do publish jobID video trainingConfig ;;
  user <- call (CGetUserByID userID) ;;
  let user := AddScene user jobID in
  do call (CUpdateUser user) ;;
  ret jobID)).

End ClientService.

(** ** An in-memory environment

    One instance of [Collaborators] on which the service runs by
    computation: files are byte strings by path, the store keeps users
    and scenes by hex id, the queue is the list of published jobs, the
    ObjectID generator is a counter.  Each store can be switched to
    refuse its calls. *)
Module Mem.

Record Files : Type := mkFiles {
  dirs : list string;
  files : gmap string (list byte);
  holes : gmap string Z;        (* bytes a sparse file has past its content *)
  read_only : bool
}.

Record Store : Type := mkStore {
  users : gmap string (list string);
  videos : gmap string scene.Video;
  names : gmap string string;
  configs : gmap string scene.TrainingConfig;
  nerfs : gmap string (gmap string (gmap string string));
  down : bool
}.

Record Queue : Type := mkQueue {
  published : list (string * scene.Video * scene.TrainingConfig);
  closed : bool
}.

Definition unavailable : error := ErrExternal "store unavailable".
Definition not_found : error := ErrExternal "document not found".

Definition read {A} (s : Store) (o : option A) : result A :=
  if down s then Err unavailable
  else match o with Some a => Ok a | None => Err not_found end.

Definition write (f : Store -> Store) (s : Store) : option error * Store :=
  if down s then (Some unavailable, s) else (None, f s).

Definition userHasJobAccess (userID sceneID : ObjectID) (s : Store)
  : result bool :=
  read s ((fun scenes => bool_decide (Hex sceneID ∈ scenes))
            <$> users s !! Hex userID).

Definition getUserByID (userID : ObjectID) (s : Store)
  : result (ObjectID * list string) :=
  read s ((fun scenes => (userID, scenes)) <$> users s !! Hex userID).

Definition updateUser (u : ObjectID * list string)
  : Store -> option error * Store :=
  write (fun s => mkStore (<[Hex u.1 := u.2]> (users s)) (videos s) (names s)
                    (configs s) (nerfs s) (down s)).

Definition setVideo (jobID : string) (v : scene.Video)
  : Store -> option error * Store :=
  write (fun s => mkStore (users s) (<[jobID := v]> (videos s)) (names s)
                    (configs s) (nerfs s) (down s)).

Definition setSceneName (jobID name : string)
  : Store -> option error * Store :=
  write (fun s => mkStore (users s) (videos s) (<[jobID := name]> (names s))
                    (configs s) (nerfs s) (down s)).

Definition setTrainingConfig (jobID : string) (c : scene.TrainingConfig)
  : Store -> option error * Store :=
  write (fun s => mkStore (users s) (videos s) (names s)
                    (<[jobID := c]> (configs s)) (nerfs s) (down s)).

Definition publishSfmJob (jobID : string) (v : scene.Video)
    (c : scene.TrainingConfig) (q : Queue) : option error * Queue :=
  if closed q then (Some (ErrExternal "channel closed"), q)
  else (None, mkQueue (published q ++ [(jobID, v, c)])%list (closed q)).

Definition stat (path : string) (fs : Files) : result FileInfo :=
  match files fs !! path with
  | Some content =>
      Ok (mkFileInfo (filepath.Base path)
          (Z.of_nat (length content) + default 0 (holes fs !! path)))
  | None => Err (ErrExternal "no such file or directory")
  end.

Definition mkdirAll (path : string) (perm : Z) (fs : Files)
  : option error * Files :=
  if read_only fs then (Some (ErrExternal "read-only file system"), fs)
  else (None,
      mkFiles (dirs fs ++ [path])%list (files fs) (holes fs) (read_only fs)).

Definition create (path : string) (fs : Files) : result string * Files :=
  if read_only fs then (Err (ErrExternal "read-only file system"), fs)
  else (Ok path,
      mkFiles (dirs fs) (<[path := []]> (files fs)) (delete path (holes fs))
        (read_only fs)).

Definition copy (dst : string) (src : list byte) (fs : Files)
  : result Z * Files :=
  (Ok (Z.of_nat (length src)),
   mkFiles (dirs fs) (<[dst := src]> (files fs)) (holes fs) (read_only fs)).

Definition close (dst : string) (fs : Files) : option error * Files :=
  (None, fs).

(** The [k] low bytes of [n], most significant first. *)
Fixpoint be_bytes (k : nat) (n : N) : list byte :=
  match k with
  | O => []
  | S k' =>
      (be_bytes k' (n / 256) ++ [default Byte.x00 (Byte.of_N (n mod 256))])%list
  end.

Definition newObjectID (n : N) : ObjectID * N :=
  (be_bytes 12 n, (n + 1)%N).

Definition rangeOrder (_ : unit) (m : gmap string string)
  : list (string * string) * unit :=
  (map_to_list m, tt).

Definition env : Collaborators := {|
  FS := Files;
  DB := Store;
  MQ := Queue;
  IDGen := N;
  RT := unit;
  OsFile := string;
  User := ObjectID * list string;
  Nerf := gmap string (gmap string string);
  UserHasJobAccess := userHasJobAccess;
  GetUserByID := getUserByID;
  UpdateUser := updateUser;
  AddScene := fun u jobID => (u.1, (u.2 ++ [jobID])%list);
  GetNerf := fun sceneID s => read s (nerfs s !! Hex sceneID);
  GetTrainingConfig := fun sceneID s => read s (configs s !! Hex sceneID);
  SetVideo := setVideo;
  SetSceneName := setSceneName;
  SetTrainingConfig := setTrainingConfig;
  GetFilePathsForOutputType := fun n ot => default ∅ (n !! ot);
  PublishSfmJob := publishSfmJob;
  os_Stat := stat;
  os_MkdirAll := mkdirAll;
  os_Create := create;
  io_Copy := copy;
  file_Close := close;
  NewObjectID := newObjectID;
  range_order := rangeOrder;
  range_order_perm := fun _ m => Permutation_refl (map_to_list m)
|}.

(** *** A small world: one user who owns one trained scene *)

Definition alice : ObjectID := be_bytes 12 1.
Definition bob : ObjectID := be_bytes 12 2.
Definition stranger : ObjectID := be_bytes 12 3.
Definition garden : ObjectID := be_bytes 12 16.

Definition garden_config : scene.TrainingConfig :=
  scene.mkTrainingConfig
    (scene.mkNerfTrainingConfig "gaussian" ["splat_cloud"; "video"] [7000] 30000).

Definition garden_nerf : gmap string (gmap string string) :=
  {[ "splat_cloud" := {[ "7000" := "data/nerf/garden/splat_7000.ply";
                         "30000" := "data/nerf/garden/splat_30000.ply" ]};
     "video" := {[ "7000" := "data/nerf/garden/video_7000.mp4" ]} ]}.

Definition store0 : Store :=
  mkStore {[ Hex alice := [Hex garden]; Hex bob := [] ]}
          ∅ ∅
          {[ Hex garden := garden_config ]}
          {[ Hex garden := garden_nerf ]}
          false.

Definition files0 : Files :=
  mkFiles []
    {[ "data/nerf/garden/splat_7000.ply" := repeat Byte.x2a 5;
       "data/nerf/garden/video_7000.mp4" := [] ]}
    ∅
    false.

(** The same files and a sparse [splat_30000.ply] as long as a file can
    be: [2^63 - 1] bytes. *)
Definition files_sparse : Files :=
  mkFiles []
    (<[ "data/nerf/garden/splat_30000.ply" := [] ]> (files files0))
    {[ "data/nerf/garden/splat_30000.ply" := Int64.max_int ]}
    false.

Definition world0 : @World env :=
  mkWorld (Env := env) files0 store0 (mkQueue [] false) 100%N tt [].

Definition state0 : @State env := mkState world0 [].

Definition state_sparse : @State env :=
  mkState (mkWorld (Env := env) files_sparse store0 (mkQueue [] false) 100%N
             tt [])
    [].

Definition upload (name : string) : common.UploadedFile :=
  common.mkUploadedFile
    (Ok (mkFileInfo name 3))
    (Ok [Byte.x01; Byte.x02; Byte.x03]).

Definition request (name : string) : common.VideoUploadRequest :=
  common.mkVideoUploadRequest (upload name) "gaussian" ["splat_cloud"]
    [7000] 30000 "garden".

End Mem.

(** ** Definitions used to state the properties *)

(** A string without a path separator and without a dot. *)
Fixpoint plain (s : string) : bool :=
  match s with
  | EmptyString => true
  | String c rest =>
      negb (filepath.IsPathSeparator c) && negb (Ascii.eqb c "."%char)
      && plain rest
  end.

(** The value of a hex digit, and the byte two digits spell. *)
Definition unhex_digit (c : ascii) : N :=
  let n := N_of_ascii c in
  if (n <? 58)%N then (n - 48)%N else (n - 87)%N.

Definition unhex_byte (hi lo : ascii) : byte :=
  default Byte.x00 (Byte.of_N (16 * unhex_digit hi + unhex_digit lo)).

(** The errors [HandleIncomingVideo] returns from its validation step. *)
Inductive ValidationError : error -> Prop :=
| no_file_stats e : ValidationError (Wrapf "failed to get file stats" e)
| file_not_received : ValidationError (Errorf "file not received")
| improper_extension : ValidationError (Errorf "improper file extension").

(** The least number of [unit]-sized chunks that cover [n] bytes. *)
Definition is_ceil_div (n unit c : Z) : Prop :=
  (c - 1) * unit < n <= c * unit.

Section Characterisations.

Context `{Env : Collaborators}.

(** What the metadata loop records for one path, given the file system. *)
Definition probe (fs : FS) (path : string) : ResourceInfo :=
  match os_Stat path fs with
  | Ok fileInfo => resourceInfo (FileSize fileInfo)
  | Err _ => ResourceInfo_missing
  end.

(** Whether the loop of [GetNerfMetadata] takes output type [ot]. *)
Definition selected (outputType ot : string) : bool :=
  String.eqb outputType "" || String.eqb outputType ot.

(** The mapping the two loops of [GetNerfMetadata] build, as a function
    of the file system, the registry and the declared output types. *)
Definition collect (fs : FS) (nerf : Nerf) (outputType : string)
    (ots : list string) (resources : gmap string (gmap string ResourceInfo))
  : gmap string (gmap string ResourceInfo) :=
  fold_left
    (fun resources ot =>
       if selected outputType ot
       then <[ot := probe fs <$> GetFilePathsForOutputType nerf ot]> resources
       else resources)
    ots resources.

(** Two worlds with the same stores; the runtime's seed may differ. *)
Definition same_stores (w w' : World) : Prop :=
  w_fs w' = w_fs w /\ w_db w' = w_db w /\ w_mq w' = w_mq w
  /\ w_gen w' = w_gen w /\ w_log w' = w_log w.

(** What [GetNerfMetadata] returns, as a function of the store and the
file system it reads. *)
Definition metadata_of (db : DB) (fs : FS) (userID sceneID : ObjectID)
    (outputType : string) : result NerfMetadata :=
  match UserHasJobAccess userID sceneID db with
  | Err e => Err e
  | Ok false => Err ErrUserNoAccess
  | Ok true =>
      match GetNerf sceneID db with
      | Err e => Err e
      | Ok nerf =>
          match GetTrainingConfig sceneID db with
          | Err e => Err e
          | Ok config =>
              Ok (mkNerfMetadata
                    (collect fs nerf outputType
                       (scene.OutputTypes (scene.nerfTrainingConfig config))
                       ∅))
          end
      end
  end.

(** The path a submission with job identifier [jobID] stores its video
    at. *)
Definition video_path (jobID : string) : string :=
  videosFolder ++ "/" ++ jobID ++ ".mp4".

(** The trace of a submission in which every step succeeds. *)
Definition submission_entries (userID : ObjectID)
    (req : common.VideoUploadRequest) (fileStat : FileInfo)
    (oid : ObjectID) (dst : OsFile) (src : list byte) (written : Z)
    (u : User) (closed : result unit) : list Entry :=
  let jobID := Hex oid in
  let video := scene.mkVideo (video_path jobID) in
  let config :=
    scene.mkTrainingConfig
      (scene.mkNerfTrainingConfig
         (common.TrainingMode req) (common.OutputTypes req)
         (common.SaveIterations req) (common.TotalIterations req)) in
  [ Called (CFileStat (common.File req)) (Ok fileStat);
    Called CNewObjectID (Ok oid);
    Called (CMkdirAll videosFolder ModePerm) (Ok tt);
    Called (CCreate (video_path jobID)) (Ok dst);
    Called (CFileOpen (common.File req)) (Ok src);
    Called (CCopy dst src) (Ok written);
    Called (CSetVideo jobID video) (Ok tt);
    Called (CSetSceneName jobID (common.SceneName req)) (Ok tt);
    Called (CSetTrainingConfig jobID config) (Ok tt);
    Called (CPublishSfmJob jobID video config) (Ok tt);
    Called (CGetUserByID userID) (Ok u);
    Called (CUpdateUser (AddScene u jobID)) (Ok tt);
    Called (CSrcClose src) (Ok tt);
    Called (CDstClose dst) closed ].

End Characterisations.

(** ** The credential gateway

    [LoginUser] and [RegisterUser] reach three more operations of the
    user package; they read and write the same store and the same users
    as the collaborators above. *)
Class Credentials (Env : Collaborators) : Type := {
  GetUserByUsername : string -> DB -> result User;
  CheckPassword : User -> string -> option error;
  GenerateUser : string -> string -> DB -> result User * DB;
  UserID : User -> ObjectID          (* the field [user.ID] *)
}.

Section CredentialGateway.

Context `{Cred : Credentials}.

(** [LoginUser]: the store is only read. *)
Definition LoginUser (username password : string) (db : DB) : result string :=
  match GetUserByUsername username db with
  | Err err => Err err
  | Ok user =>
      match CheckPassword user password with
      | Some err => Err err
      | None => Ok (Hex (UserID user))
      end
  end.

(** [RegisterUser]: the generated user is dropped, its error returned. *)
Definition RegisterUser (username password : string) (db : DB)
  : option error * DB :=
  let '(r, db') := GenerateUser username password db in
  (result_error r, db').

End CredentialGateway.

(** ** Observations on traces *)

Section Observations.

Context `{Env : Collaborators}.

(** Which operation a recorded call is. *)
Inductive Kind : Type :=
| KUserHasJobAccess | KGetNerf | KGetTrainingConfig | KOsStat
| KFileStat | KNewObjectID | KMkdirAll | KCreate | KFileOpen | KCopy
| KDstClose | KSrcClose
| KSetVideo | KSetSceneName | KSetTrainingConfig | KPublishSfmJob
| KGetUserByID | KUpdateUser | KLogErrorf.

Definition kind_of (e : Entry) : Kind :=
  match e with
  | Called c _ =>
      match c with
      | CUserHasJobAccess _ _ => KUserHasJobAccess
      | CGetNerf _ => KGetNerf
      | CGetTrainingConfig _ => KGetTrainingConfig
      | COsStat _ => KOsStat
      | CFileStat _ => KFileStat
      | CNewObjectID => KNewObjectID
      | CMkdirAll _ _ => KMkdirAll
      | CCreate _ => KCreate
      | CFileOpen _ => KFileOpen
      | CCopy _ _ => KCopy
      | CDstClose _ => KDstClose
      | CSrcClose _ => KSrcClose
      | CSetVideo _ _ => KSetVideo
      | CSetSceneName _ _ => KSetSceneName
      | CSetTrainingConfig _ _ => KSetTrainingConfig
      | CPublishSfmJob _ _ _ => KPublishSfmJob
      | CGetUserByID _ => KGetUserByID
      | CUpdateUser _ => KUpdateUser
      | CLogErrorf _ _ => KLogErrorf
      end
  end.

(** The calls that work on the upload, the generator and the file
    system only. *)
Definition storage_call {A} (c : Call A) : bool :=
  match c with
  | CFileStat _ | CNewObjectID | CMkdirAll _ _ | CCreate _ | CFileOpen _
  | CCopy _ _ | CDstClose _ | CSrcClose _ => true
  | _ => false
  end.

(** What a call hands to the logger. *)
Definition logged {A} (c : Call A) : list (string * error) :=
  match c with
  | CLogErrorf format err => [(format, err)]
  | _ => []
  end.

(** The part of the world a submission may only touch once its file is
    stored. *)
Definition db_mq_log (w : World) : DB * MQ * list (string * error) :=
  (w_db w, w_mq w, w_log w).

(** The entries a call adds to the trace of the state it starts from. *)
Definition new_entries (before after : State) : list Entry :=
  drop (length (trace before)) (trace after).

(** A [Stat] of a path the registry holds for a declared, selected
    output type, with the answer of the file system [fs]. *)
Definition registered_stat (fs : FS) (nerf : Nerf) (outputType : string)
    (declared : list string) (e : Entry) : Prop :=
  exists ot iteration path,
    ot ∈ declared
    /\ selected outputType ot = true
    /\ GetFilePathsForOutputType nerf ot !! iteration = Some path
    /\ e = Called (COsStat path) (os_Stat path fs).

End Observations.

(** *** More of the in-memory environment *)

Module MemCases.

(** Accounts by user name: password and ObjectID.  Registration is
    closed: every [GenerateUser] is refused. *)
Definition directory : list (string * (string * ObjectID)) :=
  [("alice", ("wonderland", Mem.alice)); ("bob", ("builder", Mem.bob))].

Definition lookup_name (username : string) : option (string * ObjectID) :=
  snd <$> List.find (fun a => String.eqb a.1 username) directory.

Definition lookup_id (id : ObjectID) : option string :=
  (fun a => a.2.1)
    <$> List.find (fun a => String.eqb (Hex a.2.2) (Hex id)) directory.

Definition getUserByUsername (username : string) (s : Mem.Store)
  : result (ObjectID * list string) :=
  match lookup_name username with
  | Some (_, id) => Mem.getUserByID id s
  | None => Err Mem.not_found
  end.

Definition checkPassword (u : ObjectID * list string) (password : string)
  : option error :=
  match lookup_id u.1 with
  | Some expected =>
      if String.eqb expected password then None
      else Some (ErrExternal "wrong password")
  | None => Some (ErrExternal "wrong password")
  end.

Definition generateUser (username password : string) (s : Mem.Store)
  : result (ObjectID * list string) * Mem.Store :=
  (Err (ErrExternal "registration closed"), s).

Definition credentials : Credentials Mem.env :=
  @Build_Credentials Mem.env
    getUserByUsername checkPassword generateUser
    (fun u : ObjectID * list string => u.1).

(** The store of [Mem.state0] with the output types of the garden scene
    declared in another order and one of them twice. *)
Definition garden_config_again : scene.TrainingConfig :=
  scene.mkTrainingConfig
    (scene.mkNerfTrainingConfig "gaussian" ["video"; "splat_cloud"; "video"]
       [7000] 30000).

Definition store_again : Mem.Store :=
  Mem.mkStore (Mem.users Mem.store0) ∅ ∅
    {[ Hex Mem.garden := garden_config_again ]}
    (Mem.nerfs Mem.store0) false.

Definition state_again : @State Mem.env :=
  mkState (mkWorld (Env := Mem.env) Mem.files0 store_again
             (Mem.mkQueue [] false) 100%N tt [])
    [].

(** A store that refuses every call, and a read-only file system. *)
Definition state_down : @State Mem.env :=
  mkState (mkWorld (Env := Mem.env) Mem.files0
             (Mem.mkStore (Mem.users Mem.store0) ∅ ∅ ∅ ∅ true)
             (Mem.mkQueue [] false) 100%N tt [])
    [].

Definition state_read_only : @State Mem.env :=
  mkState (mkWorld (Env := Mem.env)
             (Mem.mkFiles [] (Mem.files Mem.files0) ∅ true) Mem.store0
             (Mem.mkQueue [] false) 100%N tt [])
    [].

Definition state_queue_closed : @State Mem.env :=
  mkState (mkWorld (Env := Mem.env) Mem.files0 Mem.store0
             (Mem.mkQueue [] true) 100%N tt [])
    [].

(** A store in which alice also owns a scene without a registry
    ([meadow]) and a scene with a registry but no configuration
    ([orchard]). *)
Definition meadow : ObjectID := Mem.be_bytes 12 17.
Definition orchard : ObjectID := Mem.be_bytes 12 18.

Definition store_partial : Mem.Store :=
  Mem.mkStore {[ Hex Mem.alice := [Hex Mem.garden; Hex meadow; Hex orchard] ]}
    ∅ ∅
    {[ Hex Mem.garden := Mem.garden_config ]}
    {[ Hex Mem.garden := Mem.garden_nerf; Hex orchard := Mem.garden_nerf ]}
    false.

Definition state_partial : @State Mem.env :=
  mkState (mkWorld (Env := Mem.env) Mem.files0 store_partial
             (Mem.mkQueue [] false) 100%N tt [])
    [].

(** An upload whose [Stat()] fails. *)
Definition request_unreadable : common.VideoUploadRequest :=
  common.mkVideoUploadRequest
    (common.mkUploadedFile (Err (ErrExternal "bad file descriptor")) (Ok []))
    "gaussian" ["splat_cloud"] [7000] 30000 "garden".

End MemCases.

(** ** The submission pipeline as the list of its steps

    The pipeline as its description has it: validation, then the
    allocation of the identifier, then a list of steps run in order.  A
    step works on the job in progress: the state of the service and the
    calls deferred so far.  The first step that returns an error ends the
    run with the job as that step left it; nothing is undone.  The
    deferred calls run when the submission returns, last deferred
    first. *)

Section ListedPipeline.

Context `{Env : Collaborators}.

Record Job : Type := mkJob {
  j_state : State;
  j_deferred : list (Call unit)     (* last deferred first *)
}.

Definition PipelineStep : Type := Job -> option error * Job.

Definition at_state (j : Job) (st : State) : Job :=
  mkJob st (j_deferred j).

(** A step that is one call on a collaborator. *)
Definition perform {A} (c : Call A) : PipelineStep :=
  fun j =>
    match call c (j_state j) with
    | (r, st') => (result_error r, at_state j st')
    end.

(** Steps in order: each one starts from the job the one before it
    left, and only if that one returned no error. *)
Fixpoint in_order (steps : list PipelineStep) (j : Job) : option error * Job :=
  match steps with
  | [] => (None, j)
  | step :: rest =>
      match step j with
      | (None, j') => in_order rest j'
      | (Some e, j') => (Some e, j')
      end
  end.

Definition run_deferred (j : Job) : State :=
  fold_left (fun st c => (call c st).2) (j_deferred j) (j_state j).

(** Create the file at [path], open the upload, copy the upload into the
    file; both are closed when the submission returns. *)
Definition stream_copy (path : string) (f : common.UploadedFile)
  : PipelineStep :=
  fun j =>
    match call (CCreate path) (j_state j) with
    | (Err e, st1) => (Some e, at_state j st1)
    | (Ok dst, st1) =>
        let deferred := CDstClose dst :: j_deferred j in
        match call (CFileOpen f) st1 with
        | (Err e, st2) => (Some e, mkJob st2 deferred)
        | (Ok src, st2) =>
            perform (CCopy dst src) (mkJob st2 (CSrcClose src :: deferred))
        end
    end.

(** Publish the job; a refusal is logged. *)
Definition enqueue (jobID : string) (video : scene.Video)
    (config : scene.TrainingConfig) : PipelineStep :=
  fun j =>
    match call (CPublishSfmJob jobID video config) (j_state j) with
    | (Ok _, st1) => (None, at_state j st1)
    | (Err e, st1) =>
        (Some e,
         at_state j (call (CLogErrorf "Failed to publish SFM job: %v" e) st1).2)
    end.

(** Fetch the user, add the job to their scenes, write the user back. *)
Definition attribute_ownership (userID : ObjectID) (jobID : string)
  : PipelineStep :=
  fun j =>
    match call (CGetUserByID userID) (j_state j) with
    | (Err e, st1) => (Some e, at_state j st1)
    | (Ok u, st1) => perform (CUpdateUser (AddScene u jobID)) (at_state j st1)
    end.

(** The steps after validation and allocation, in the listed order:
    store the file (folder, then copy), persist the video reference, the
    name and the configuration, enqueue, attribute ownership. *)
Definition listed_pipeline (userID : ObjectID)
    (req : common.VideoUploadRequest) (jobID : string) : list PipelineStep :=
  let video := scene.mkVideo (video_path jobID) in
  let config :=
    scene.mkTrainingConfig
      (scene.mkNerfTrainingConfig
         (common.TrainingMode req) (common.OutputTypes req)
         (common.SaveIterations req) (common.TotalIterations req)) in
  [ perform (CMkdirAll videosFolder ModePerm);
    stream_copy (video_path jobID) (common.File req);
    perform (CSetVideo jobID video);
    perform (CSetSceneName jobID (common.SceneName req));
    perform (CSetTrainingConfig jobID config);
    enqueue jobID video config;
    attribute_ownership userID jobID ].

(** The validation step: the upload must report a name that ends in
    [.mp4]. *)
Definition validate (req : common.VideoUploadRequest)
  : State -> option error * State :=
  fun st =>
    match call (CFileStat (common.File req)) st with
    | (Err e, st1) => (Some (Wrapf "failed to get file stats" e), st1)
    | (Ok fileStat, st1) =>
        if String.eqb (Name fileStat) ""
        then (Some (Errorf "file not received"), st1)
        else if String.eqb (filepath.Ext (Name fileStat)) ".mp4"
             then (None, st1)
             else (Some (Errorf "improper file extension"), st1)
    end.

(** The allocation step: the identifier is the hex form of a new
    ObjectID. *)
Definition allocate_identity : M string :=
  fun st =>
    match call CNewObjectID st with
    | (Ok oid, st1) => (Ok (Hex oid), st1)
    | (Err e, st1) => (Err e, st1)
    end.

(** The job a submission starts its listed steps with. *)
Definition new_job (st : State) : Job := mkJob st [].

Definition submit_in_order (userID : ObjectID)
    (req : common.VideoUploadRequest) : M string :=
  fun st =>
    match validate req st with
    | (Some e, st1) => (Err e, st1)
    | (None, st1) =>
        match allocate_identity st1 with
        | (Err e, st2) => (Err e, st2)
        | (Ok jobID, st2) =>
            match in_order (listed_pipeline userID req jobID) (new_job st2) with
            | (None, j) => (Ok jobID, run_deferred j)
            | (Some e, j) => (Err e, run_deferred j)
            end
        end
    end.

End ListedPipeline.

(** ** Histories of requests

    The requests the service answers one after the other, each from the
    state the one before it left. *)

Section Histories.

Context `{Env : Collaborators}.







End Histories.

(** * Properties *)

(** ** Machine arithmetic *)

Lemma wrap64_in_range z : Int64.in_range z -> Int64.wrap64 z = z.
Proof.
  unfold Int64.in_range, Int64.min_int, Int64.max_int, Int64.wrap64.
  change (2 ^ 63) with 9223372036854775808.
  change (2 ^ 64) with 18446744073709551616.
  intros H. rewrite Z.mod_small; lia.
Qed.

Lemma wrap64_sub_idemp a b :
  Int64.wrap64 (Int64.wrap64 a - b) = Int64.wrap64 (a - b).
Proof.
  unfold Int64.wrap64. f_equal.
  replace ((a + 2 ^ 63) mod 2 ^ 64 - 2 ^ 63 - b + 2 ^ 63)
    with ((a + 2 ^ 63) mod 2 ^ 64 + - b) by lia.
  rewrite Zplus_mod_idemp_l. f_equal. lia.
Qed.

(** As long as [fileSize + 1024*1024 - 1] itself fits in an [int64] the
    function computes the ceiling quotient and the non-zero remainder. *)
Lemma resourceInfo_below_overflow n :
  0 <= n <= Int64.max_int - 1048575 ->
  resourceInfo n =
    mkResourceInfo true n ((n + 1048575) / 1048576)
      (if Z.eqb (n mod 1048576) 0 then 1048576 else n mod 1048576).
Proof.
  unfold Int64.max_int. change (2 ^ 63) with 9223372036854775808.
  intros H. unfold resourceInfo.
  unfold Int64.add, Int64.sub, Int64.div, Int64.rem, Int64.to_int.
  change (1024 * 1024) with 1048576.
  assert (R : forall z,
             - 9223372036854775808 <= z <= 9223372036854775807 ->
             Int64.wrap64 z = z).
  { intros z Hz. apply wrap64_in_range.
    unfold Int64.in_range, Int64.min_int, Int64.max_int.
    change (2 ^ 63) with 9223372036854775808. lia. }
  rewrite wrap64_sub_idemp.
  rewrite (R (n + 1048576 - 1)) by lia.
  rewrite Z.quot_div_nonneg by lia.
  replace (n + 1048576 - 1) with (n + 1048575) by lia.
  assert (0 <= (n + 1048575) / 1048576 <= n + 1048575).
  { split; [apply Z.div_pos; lia|].
    apply Z.div_le_upper_bound; lia. }
  do 2 rewrite (R ((n + 1048575) / 1048576)) by lia.
  rewrite Z.rem_mod_nonneg by lia.
  reflexivity.
Qed.

Lemma ceil_div_unit n :
  0 <= n -> is_ceil_div n 1048576 ((n + 1048575) / 1048576).
Proof.
  intros H. unfold is_ceil_div.
  pose proof (Z.div_mod (n + 1048575) 1048576 ltac:(lia)).
  pose proof (Z.mod_pos_bound (n + 1048575) 1048576 ltac:(lia)).
  lia.
Qed.

(** ** Hex encoding *)

Lemma unhex_hex_digits b :
  unhex_byte (hex_digit (N.shiftr (Byte.to_N b) 4))
             (hex_digit (N.land (Byte.to_N b) 15)) = b.
Proof. destruct b; reflexivity. Qed.

Lemma hex_byte_inj b1 t1 b2 t2 :
  hex_byte b1 t1 = hex_byte b2 t2 -> b1 = b2 /\ t1 = t2.
Proof.
  unfold hex_byte. intros H. injection H as Hhi Hlo Ht.
  split; [|exact Ht].
  rewrite <- (unhex_hex_digits b1), <- (unhex_hex_digits b2).
  now rewrite Hhi, Hlo.
Qed.

(** Two ObjectIDs with the same hex form are the same. *)
Lemma Hex_inj id1 id2 : Hex id1 = Hex id2 -> id1 = id2.
Proof.
  revert id2. induction id1 as [|b1 id1 IH]; intros [|b2 id2] H;
    cbn [Hex fold_right] in H.
  - reflexivity.
  - discriminate H.
  - discriminate H.
  - apply hex_byte_inj in H as [-> H]. f_equal. now apply IH.
Qed.

Lemma hex_byte_plain b t : plain (hex_byte b t) = plain t.
Proof. destruct b; reflexivity. Qed.

Lemma Hex_plain id : plain (Hex id) = true.
Proof.
  induction id as [|b id IH]; [reflexivity|].
  change (Hex (b :: id)) with (hex_byte b (Hex id)).
  now rewrite hex_byte_plain.
Qed.

(** ** Paths *)

Lemma length_app (s t : string) :
  String.length (s ++ t) = (String.length s + String.length t)%nat.
Proof. induction s as [|c s IH]; simpl; [reflexivity | now rewrite IH]. Qed.

Lemma plain_ext_scan e : plain e = true -> filepath.ext_scan e = None.
Proof.
  induction e as [|c e IH]; [reflexivity|].
  simpl. intros H.
  apply andb_prop in H as [H He]. apply andb_prop in H as [Hs Hd].
  rewrite (IH He).
  destruct (filepath.IsPathSeparator c); [discriminate Hs|].
  destruct (Ascii.eqb c "."); [discriminate Hd | reflexivity].
Qed.

(** The extension of a name that ends in a dot and a plain suffix is that
    dot and suffix. *)
Lemma Ext_app_dot s e :
  plain e = true -> filepath.Ext (s ++ String "." e) = String "." e.
Proof.
  intros He. unfold filepath.Ext.
  assert (H : filepath.ext_scan (s ++ String "." e) = Some (String "." e)).
  { induction s as [|c s IH].
    - simpl. now rewrite (plain_ext_scan e He).
    - simpl. now rewrite IH. }
  now rewrite H.
Qed.

Lemma split_plain s : plain s = true -> filepath.split s = [s].
Proof.
  induction s as [|c s IH]; [reflexivity|].
  simpl. intros H.
  apply andb_prop in H as [H Hs]. apply andb_prop in H as [Hc _].
  rewrite (IH Hs).
  destruct (filepath.IsPathSeparator c); [discriminate Hc | reflexivity].
Qed.

Lemma split_plain_app_dot s e :
  plain s = true -> plain e = true ->
  filepath.split (s ++ String "." e) = [s ++ String "." e].
Proof.
  intros Hs He. induction s as [|c s IH].
  - simpl. now rewrite (split_plain e He).
  - simpl in Hs |- *.
    apply andb_prop in Hs as [H Hs]. apply andb_prop in H as [Hc _].
    rewrite (IH Hs).
    destruct (filepath.IsPathSeparator c); [discriminate Hc | reflexivity].
Qed.

Lemma split_nonempty s : filepath.split s <> [].
Proof.
  destruct s as [|c s]; simpl; [discriminate|].
  destruct (filepath.split s); [discriminate|].
  destruct (filepath.IsPathSeparator c); discriminate.
Qed.

(** Splitting at a separator splits the element list. *)
Lemma split_app_sep a b :
  filepath.split (a ++ String "/" b)
  = (filepath.split a ++ filepath.split b)%list.
Proof.
  induction a as [|c a IH].
  - simpl. pose proof (split_nonempty b) as N.
    destruct (filepath.split b); [contradiction | reflexivity].
  - change (String c a ++ String "/" b) with (String c (a ++ String "/" b)).
    cbn [filepath.split]. rewrite IH.
    pose proof (split_nonempty a) as N.
    destruct (filepath.split a); [contradiction|].
    destruct (filepath.IsPathSeparator c); reflexivity.
Qed.



(** A name made of a plain stem and [.mp4] is none of the elements
    [Clean] drops or resolves. *)
Lemma clean_step_name rooted out s :
  filepath.clean_step rooted out (s ++ ".mp4") = (s ++ ".mp4") :: out.
Proof.
  unfold filepath.clean_step.
  assert (L : (4 <= String.length (s ++ ".mp4"))%nat)
    by (rewrite length_app; simpl; lia).
  assert (N : forall t, (String.length t < 4)%nat ->
                        String.eqb (s ++ ".mp4") t = false).
  { intros t Ht. apply String.eqb_neq. intros E. rewrite E in L. lia. }
  rewrite !N by (simpl; lia). reflexivity.
Qed.


Lemma split_video_path jobID :
  plain jobID = true ->
  filepath.split (video_path jobID)
  = ["data"; "raw"; "videos"; jobID ++ ".mp4"].
Proof.
  intros Hp. unfold video_path.
  change ("/" ++ jobID ++ ".mp4") with (String "/" (jobID ++ ".mp4")).
  rewrite split_app_sep.
  rewrite (split_plain_app_dot jobID "mp4" Hp eq_refl).
  reflexivity.
Qed.

(** [filepath.Join] of the videos folder and [<id>.mp4], for a plain id. *)
Lemma Join_video jobID :
  plain jobID = true ->
  filepath.Join [videosFolder; jobID ++ ".mp4"] = video_path jobID.
Proof.
  intros Hp.
  change (filepath.Join [videosFolder; jobID ++ ".mp4"])
    with (filepath.Clean (video_path jobID)).
  assert (Hd : exists rest, video_path jobID = String "d" rest)
    by (eexists; reflexivity).
  destruct Hd as [rest Hd].
  unfold filepath.Clean. rewrite Hd.
  change (filepath.IsPathSeparator "d") with false. cbv iota.
  rewrite <- Hd. rewrite (split_video_path jobID Hp).
  cbn [fold_left].
  change (filepath.clean_step false [] "data") with ["data"].
  change (filepath.clean_step false ["data"] "raw") with ["raw"; "data"].
  change (filepath.clean_step false ["raw"; "data"] "videos")
    with ["videos"; "raw"; "data"].
  rewrite clean_step_name. reflexivity.
Qed.


(** ** Running service code *)

Section Runs.

Context `{Env : Collaborators}.

Lemma state_eta (st : State) : mkState (world st) (trace st) = st.
Proof. destruct st; reflexivity. Qed.

Lemma bind_run {A B} (m : M A) (k : A -> M B) st :
  bind m k st =
    match m st with
    | (Ok a, st') => k a st'
    | (Err e, st') => (Err e, st')
    end.
Proof. reflexivity. Qed.

(** A read answers from the store and leaves the world as it is. *)
Lemma call_read {A} (c : Call A) (r : result A) st :
  exec c (world st) = (r, world st) ->
  call c st = (r, mkState (world st) (trace st ++ [Called c r])).
Proof. unfold call. now intros ->. Qed.

(** The guard: one lookup, and the three ways it ends. *)
Lemma verifyUserAccess_run userID sceneID st :
  verifyUserAccess userID sceneID st =
    (match UserHasJobAccess userID sceneID (w_db (world st)) with
     | Ok true => Ok tt
     | Ok false => Err ErrUserNoAccess
     | Err e => Err e
     end,
     mkState (world st)
       (trace st ++ [Called (CUserHasJobAccess userID sceneID)
                       (UserHasJobAccess userID sceneID (w_db (world st)))])).
Proof.
  unfold verifyUserAccess. rewrite bind_run.
  rewrite (call_read _ (UserHasJobAccess userID sceneID (w_db (world st))))
    by reflexivity.
  destruct (UserHasJobAccess userID sceneID (w_db (world st))) as [[|]|e];
    reflexivity.
Qed.

Lemma stat_resource_run path st :
  stat_resource path st =
    (Ok (probe (w_fs (world st)) path),
     mkState (world st)
       (trace st ++ [Called (COsStat path) (os_Stat path (w_fs (world st)))])).
Proof.
  unfold stat_resource, probe. rewrite bind_run. unfold attempt.
  rewrite (call_read _ (os_Stat path (w_fs (world st)))) by reflexivity.
  reflexivity.
Qed.

(** The inner loop stats each path once, in the order given, and
    assigns the answers. *)
Lemma inner_loop_run ot (l : list (string * string)) resources st :
  for_each l
    (fun resources '(iteration, path) =>
       bind (stat_resource path)
         (fun info => ret (set_resource ot iteration info resources)))
    resources st
  = (Ok (fold_left
           (fun resources ip =>
              set_resource ot ip.1 (probe (w_fs (world st)) ip.2) resources)
           l resources),
     mkState (world st)
       (trace st ++
          map (fun ip => Called (COsStat ip.2)
                           (os_Stat ip.2 (w_fs (world st)))) l)).
Proof.
  revert resources st. induction l as [|[iteration path] l IH];
    intros resources st.
  - simpl. unfold ret. now rewrite app_nil_r, state_eta.
  - cbn [for_each]. rewrite bind_run, bind_run, stat_resource_run.
    unfold ret at 1. rewrite IH. cbn [world trace fold_left map fst snd].
    now rewrite <- app_assoc.
Qed.

(** Assignments through [resources[ot]] only change the entry of [ot]. *)
Lemma fold_set_resource ot (f : string -> ResourceInfo)
    (l : list (string * string)) resources inner :
  resources !! ot = Some inner ->
  fold_left (fun resources ip => set_resource ot ip.1 (f ip.2) resources)
    l resources
  = <[ot := fold_left (fun inner ip => <[ip.1 := f ip.2]> inner) l inner]>
      resources.
Proof.
  revert resources inner. induction l as [|[iteration path] l IH];
    intros resources inner H; cbn [fold_left fst snd].
  - symmetry. now apply insert_id.
  - unfold set_resource at 2. rewrite H. cbn [default].
    rewrite (IH _ (<[iteration := f path]> inner))
      by apply lookup_insert_eq.
    now rewrite insert_insert_eq.
Qed.

(** Whatever order a [range] visits a map in, assigning [f path] under
    each key yields the map of [f] over it. *)
Lemma fold_insert_range (f : string -> ResourceInfo)
    (l : list (string * string)) (m : gmap string string) :
  l ≡ₚ map_to_list m ->
  fold_left (fun inner ip => <[ip.1 := f ip.2]> inner) l ∅ = f <$> m.
Proof.
  intros Hl.
  assert (E : forall (k : list (string * string)),
             fold_right (fun ip inner => <[ip.1 := f ip.2]> inner) ∅ k
             = (list_to_map (prod_map id f <$> k) : gmap string ResourceInfo)).
  { induction k as [|[i p] k IHk]; [reflexivity|].
    cbn [fold_right]. rewrite IHk. reflexivity. }
  assert (P : rev l ≡ₚ map_to_list m)
    by (rewrite <- Hl; symmetry; apply Permutation_rev).
  rewrite <- fold_left_rev_right.
  etrans; [exact (E (rev l))|].
  rewrite list_to_map_fmap.
  rewrite (list_to_map_proper (rev l) (map_to_list m)).
  - now rewrite list_to_map_to_list.
  - rewrite P. apply NoDup_fst_map_to_list.
  - exact P.
Qed.


(** The outer loop builds [collect] and leaves every store as it was. *)
Lemma outer_loop_run nerf outputType (ots : list string) resources st :
  exists st',
    for_each ots
      (fun resources ot =>
         if String.eqb outputType "" || String.eqb outputType ot then
           let resources := <[ot := ∅]> resources in
           let filePaths := GetFilePathsForOutputType nerf ot in
           bind (range filePaths)
             (fun entries =>
                for_each entries
                  (fun resources '(iteration, path) =>
                     bind (stat_resource path)
                       (fun info =>
                          ret (set_resource ot iteration info resources)))
                  resources)
         else ret resources)
      resources st
    = (Ok (collect (w_fs (world st)) nerf outputType ots resources), st')
    /\ same_stores (world st) (world st').
Proof.
  revert resources st. induction ots as [|ot ots IH]; intros resources st.
  - exists st. split; [reflexivity|]. now repeat split.
  - cbn [for_each]. rewrite bind_run.
    unfold collect. cbn [fold_left]. fold (collect (w_fs (world st)) nerf outputType ots).
    unfold selected.
    destruct (String.eqb outputType "" || String.eqb outputType ot).
    + cbv zeta. rewrite bind_run. unfold range at 1.
      pose proof (range_order_perm (w_rt (world st))
                    (GetFilePathsForOutputType nerf ot)) as Hperm.
      destruct (range_order (w_rt (world st))
                  (GetFilePathsForOutputType nerf ot)) as [l rt'].
      cbn [fst] in Hperm.
      rewrite inner_loop_run. cbn [world trace w_fs].
      rewrite (fold_set_resource ot (probe (w_fs (world st))) l _ ∅)
        by apply lookup_insert_eq.
      rewrite (fold_insert_range _ l _ Hperm), insert_insert_eq.
      match goal with
      | |- exists st', for_each _ _ ?res ?st1 = _ /\ _ =>
          destruct (IH res st1) as (st' & Hrun & Hs)
      end.
      exists st'. split; [exact Hrun|].
      destruct Hs as (? & ? & ? & ? & ?). now repeat split.
    + unfold ret at 1.
      destruct (IH resources st) as (st' & Hrun & Hs).
      exists st'. now split.
Qed.

(** [GetNerfMetadata] returns [metadata_of] the store and the file system
    and changes neither (nor the queue, the generator, the log). *)
Lemma GetNerfMetadata_run userID sceneID outputType st :
  (GetNerfMetadata userID sceneID outputType st).1
  = metadata_of (w_db (world st)) (w_fs (world st)) userID sceneID outputType
  /\ same_stores (world st)
       (world (GetNerfMetadata userID sceneID outputType st).2).
Proof.
  unfold GetNerfMetadata, metadata_of.
  rewrite bind_run, verifyUserAccess_run.
  destruct (UserHasJobAccess userID sceneID (w_db (world st))) as [[|]|e];
    try (split; [reflexivity | now repeat split]).
  rewrite bind_run.
  rewrite (call_read _ (GetNerf sceneID (w_db (world st)))) by reflexivity.
  cbn [world trace].
  destruct (GetNerf sceneID (w_db (world st))) as [nerf|e];
    [|split; [reflexivity | now repeat split]].
  rewrite bind_run.
  rewrite (call_read _ (GetTrainingConfig sceneID (w_db (world st))))
    by reflexivity.
  cbn [world trace].
  destruct (GetTrainingConfig sceneID (w_db (world st))) as [config|e];
    [|split; [reflexivity | now repeat split]].
  rewrite bind_run.
  match goal with
  | |- context [for_each ?ots ?body ?res ?st1] =>
      destruct (outer_loop_run nerf outputType ots res st1)
        as (st' & Hrun & Hs);
      set (loop := for_each ots body res st1);
      assert (Hloop : loop = (Ok (collect (w_fs (world st1)) nerf outputType
                                    ots res), st')) by exact Hrun
  end.
  rewrite Hloop. unfold ret. cbn [fst snd world] in *.
  split; [reflexivity | exact Hs].
Qed.

Lemma collect_cons fs nerf outputType o (ots : list string) resources :
  collect fs nerf outputType (o :: ots) resources
  = collect fs nerf outputType ots
      (if selected outputType o
       then <[o := probe fs <$> GetFilePathsForOutputType nerf o]> resources
       else resources).
Proof. reflexivity. Qed.

(** Which output types [collect] has an entry for, and what the entry is. *)
Lemma collect_lookup fs nerf outputType (ots : list string) resources ot :
  collect fs nerf outputType ots resources !! ot
  = if decide (ot ∈ ots /\ selected outputType ot = true)
    then Some (probe fs <$> GetFilePathsForOutputType nerf ot)
    else resources !! ot.
Proof.
  revert resources. induction ots as [|o ots IH]; intros resources.
  - unfold collect. cbn [fold_left].
    destruct (decide _) as [[H _]|_]; [|reflexivity].
    now apply elem_of_nil in H.
  - rewrite collect_cons, IH.
    destruct (decide (ot ∈ ots /\ selected outputType ot = true)) as [[Hin Hs]|Hn].
    + rewrite decide_True; [reflexivity|].
      split; [now apply elem_of_cons; right | exact Hs].
    + destruct (decide (ot = o)) as [->|Hne].
      * destruct (selected outputType o) eqn:Hs.
        -- rewrite lookup_insert_eq, decide_True; [reflexivity|].
           split; [apply elem_of_cons; now left | reflexivity].
        -- rewrite decide_False; [reflexivity|]. intros [_ ?]. discriminate.
      * assert (E : (if selected outputType o
                     then <[o := probe fs <$> GetFilePathsForOutputType nerf o]>
                            resources
                     else resources) !! ot = resources !! ot).
        { destruct (selected outputType o); [|reflexivity].
          now rewrite lookup_insert_ne. }
        rewrite E. rewrite decide_False; [reflexivity|].
        intros [Hin Hs]. apply elem_of_cons in Hin as [?|?]; [congruence|].
        apply Hn. now split.
Qed.

(** *** Stepping through a function body, one call at a time *)

Lemma call_run {A} (c : Call A) st :
  call c st =
    ((exec c (world st)).1,
     mkState (exec c (world st)).2
       (trace st ++ [Called c (exec c (world st)).1])).
Proof. unfold call. now destruct (exec c (world st)). Qed.

Lemma bind_call {A B} (c : Call A) (k : A -> M B) st :
  bind (call c) k st =
    match exec c (world st) with
    | (Ok a, w') => k a (mkState w' (trace st ++ [Called c (Ok a)]))
    | (Err e, w') => (Err e, mkState w' (trace st ++ [Called c (Err e)]))
    end.
Proof.
  rewrite bind_run, call_run.
  now destruct (exec c (world st)) as [[a|e] w'].
Qed.

Lemma bind_publish {B} jobID video config (k : unit -> M B) st :
  bind (publish jobID video config) k st =
    match exec (CPublishSfmJob jobID video config) (world st) with
    | (Ok a, w') =>
        k tt (mkState w'
                (trace st ++ [Called (CPublishSfmJob jobID video config) (Ok a)]))
    | (Err e, w') =>
        (Err e,
         mkState (exec (CLogErrorf "Failed to publish SFM job: %v" e) w').2
           (trace st ++
              [Called (CPublishSfmJob jobID video config) (Err e);
               Called (CLogErrorf "Failed to publish SFM job: %v" e) (Ok tt)]))
    end.
Proof.
  rewrite bind_run. unfold publish. rewrite bind_run. unfold attempt.
  rewrite call_run.
  destruct (exec (CPublishSfmJob jobID video config) (world st))
    as [[a|e] w']; cbn [fst snd].
  - reflexivity.
  - rewrite bind_call. cbn [world trace exec fst snd].
    unfold fail. now rewrite <- app_assoc.
Qed.

Lemma defer_run {A} (c : Call unit) (body : M A) st :
  defer (call c) body st =
    ((body st).1,
     mkState (exec c (world (body st).2)).2
       (trace (body st).2 ++ [Called c (exec c (world (body st).2)).1])).
Proof.
  unfold defer. destruct (body st) as [r st']. now rewrite call_run.
Qed.

Lemma exec_FileStat f w : exec (CFileStat f) w = (common.Stat f, w).
Proof. reflexivity. Qed.

Lemma exec_FileOpen f w : exec (CFileOpen f) w = (common.Open f, w).
Proof. reflexivity. Qed.

Lemma exec_SrcClose src w : exec (CSrcClose src) w = (Ok tt, w).
Proof. reflexivity. Qed.

Lemma exec_NewObjectID w :
  (exec CNewObjectID w).1 = Ok (NewObjectID (w_gen w)).1.
Proof. cbn [exec]. now destruct (NewObjectID (w_gen w)). Qed.

End Runs.

(** * The access guard *)

Section AccessGuard.

Context `{Env : Collaborators}.

(** C4, as the code has it: the guard returns the lookup's own error
    when [UserHasJobAccess] fails, [user.ErrUserNoAccess] when the lookup
    answers "not authorized", and [nil] only when the lookup succeeds and
    answers "authorized"; an erroring lookup never yields success. *)
Theorem verifyUserAccess_fail_closed userID sceneID st :
  (verifyUserAccess userID sceneID st).1 =
    match UserHasJobAccess userID sceneID (w_db (world st)) with
    | Ok true => Ok tt
    | Ok false => Err ErrUserNoAccess
    | Err e => Err e
    end.
Proof. now rewrite verifyUserAccess_run. Qed.

End AccessGuard.

(** C4, as stated, fails: for a user the store does not know the lookup
    fails with the store's error, and the guard hands that error back,
    which is not [user.ErrUserNoAccess]. *)
Lemma verifyUserAccess_lookup_error_is_not_denied :
  UserHasJobAccess (Collaborators := Mem.env) Mem.stranger Mem.garden
    (w_db (world Mem.state0)) = Err Mem.not_found
  /\ (verifyUserAccess (Env := Mem.env) Mem.stranger Mem.garden Mem.state0).1
     = Err Mem.not_found
  /\ (verifyUserAccess (Env := Mem.env) Mem.stranger Mem.garden Mem.state0).1
     <> Err ErrUserNoAccess.
Proof. split; [reflexivity|]. split; [reflexivity | discriminate]. Qed.

(** * The chunking engine *)

(** The two sizes the chunk rule is illustrated with. *)
Example resourceInfo_two_units :
  resourceInfo 2097152 = mkResourceInfo true 2097152 2 1048576.
Proof. reflexivity. Qed.

Example resourceInfo_partial_unit :
  resourceInfo 1500000 = mkResourceInfo true 1500000 2 451424.
Proof. reflexivity. Qed.

(** The chunk rule at the top of the [int64] range: the sum
    [fileSize + 1024*1024 - 1] wraps around and the quotient is negative. *)
Lemma resourceInfo_max_int :
  resourceInfo Int64.max_int
  = mkResourceInfo true 9223372036854775807 (-8796093022207) 1048575.
Proof. reflexivity. Qed.

Lemma not_ceil_div_max_int :
  ~ is_ceil_div 9223372036854775807 1048576 (-8796093022207).
Proof. unfold is_ceil_div. lia. Qed.

Section ChunkingEngine.

Context `{Env : Collaborators}.

(** The entry of one registered artifact in the answer of an authorized,
    successful call. *)
Lemma GetNerfMetadata_entry userID sceneID outputType st nerf config
    ot iteration path :
  UserHasJobAccess userID sceneID (w_db (world st)) = Ok true ->
  GetNerf sceneID (w_db (world st)) = Ok nerf ->
  GetTrainingConfig sceneID (w_db (world st)) = Ok config ->
  ot ∈ scene.OutputTypes (scene.nerfTrainingConfig config) ->
  selected outputType ot = true ->
  GetFilePathsForOutputType nerf ot !! iteration = Some path ->
  exists metadata inner,
    (GetNerfMetadata userID sceneID outputType st).1 = Ok metadata
    /\ Resources metadata !! ot = Some inner
    /\ inner !! iteration = Some (probe (w_fs (world st)) path).
Proof.
  intros HA HN HC Hot Hsel Hpath.
  destruct (GetNerfMetadata_run userID sceneID outputType st) as [-> _].
  unfold metadata_of. rewrite HA, HN, HC.
  eexists _, _. split; [reflexivity|]. cbn [Resources].
  rewrite collect_lookup, decide_True by now split.
  split; [reflexivity|].
  now rewrite lookup_fmap, Hpath.
Qed.

(** C6: an artifact file of size 0 is reported with [Chunks = 0] and
    [LastChunkSize = 1048576]. *)
Theorem GetNerfMetadata_empty_file userID sceneID outputType st nerf config
    ot iteration path fileInfo :
  UserHasJobAccess userID sceneID (w_db (world st)) = Ok true ->
  GetNerf sceneID (w_db (world st)) = Ok nerf ->
  GetTrainingConfig sceneID (w_db (world st)) = Ok config ->
  ot ∈ scene.OutputTypes (scene.nerfTrainingConfig config) ->
  selected outputType ot = true ->
  GetFilePathsForOutputType nerf ot !! iteration = Some path ->
  os_Stat path (w_fs (world st)) = Ok fileInfo ->
  FileSize fileInfo = 0 ->
  exists metadata inner,
    (GetNerfMetadata userID sceneID outputType st).1 = Ok metadata
    /\ Resources metadata !! ot = Some inner
    /\ inner !! iteration = Some (mkResourceInfo true 0 0 1048576).
Proof.
  intros HA HN HC Hot Hsel Hpath Hstat Hsize.
  destruct (GetNerfMetadata_entry userID sceneID outputType st nerf config
              ot iteration path HA HN HC Hot Hsel Hpath)
    as (metadata & inner & Hrun & Hres & Hinner).
  exists metadata, inner. repeat split; [exact Hrun | exact Hres |].
  rewrite Hinner. unfold probe. now rewrite Hstat, Hsize.
Qed.

(** In the range where the sum does not wrap, an existing artifact of
    [n > 0] bytes is reported with its size, the ceiling of [n / 1048576]
    chunks and the remainder rule for the last chunk. *)
Lemma GetNerfMetadata_existing_file userID sceneID outputType st nerf config
    ot iteration path fileInfo :
  UserHasJobAccess userID sceneID (w_db (world st)) = Ok true ->
  GetNerf sceneID (w_db (world st)) = Ok nerf ->
  GetTrainingConfig sceneID (w_db (world st)) = Ok config ->
  ot ∈ scene.OutputTypes (scene.nerfTrainingConfig config) ->
  selected outputType ot = true ->
  GetFilePathsForOutputType nerf ot !! iteration = Some path ->
  os_Stat path (w_fs (world st)) = Ok fileInfo ->
  0 < FileSize fileInfo <= Int64.max_int - 1048575 ->
  exists metadata inner info,
    (GetNerfMetadata userID sceneID outputType st).1 = Ok metadata
    /\ Resources metadata !! ot = Some inner
    /\ inner !! iteration = Some info
    /\ Exists info = true
    /\ Size info = FileSize fileInfo
    /\ is_ceil_div (FileSize fileInfo) 1048576 (Chunks info)
    /\ LastChunkSize info =
         if Z.eqb (FileSize fileInfo mod 1048576) 0 then 1048576
         else FileSize fileInfo mod 1048576.
Proof.
  intros HA HN HC Hot Hsel Hpath Hstat Hsize.
  destruct (GetNerfMetadata_entry userID sceneID outputType st nerf config
              ot iteration path HA HN HC Hot Hsel Hpath)
    as (metadata & inner & Hrun & Hres & Hinner).
  exists metadata, inner, (resourceInfo (FileSize fileInfo)).
  split; [exact Hrun|]. split; [exact Hres|].
  split; [rewrite Hinner; unfold probe; now rewrite Hstat|].
  rewrite resourceInfo_below_overflow by lia. cbn [Exists Size Chunks LastChunkSize].
  repeat split; try reflexivity; apply ceil_div_unit; lia.
Qed.

(** For a user the lookup reports as not authorized, the call returns
    [user.ErrUserNoAccess] as the guard produced it; the lookup is the
    only call made, and the world is left as it was. *)
Lemma GetNerfMetadata_denied userID sceneID outputType st :
  UserHasJobAccess userID sceneID (w_db (world st)) = Ok false ->
  GetNerfMetadata userID sceneID outputType st =
    (Err ErrUserNoAccess,
     mkState (world st)
       (trace st ++ [Called (CUserHasJobAccess userID sceneID) (Ok false)])).
Proof.
  intros HA. unfold GetNerfMetadata.
  now rewrite bind_run, verifyUserAccess_run, HA.
Qed.

(** The same frame when the lookup itself fails: its error comes back
    and nothing else is called. *)
Lemma GetNerfMetadata_lookup_failed userID sceneID outputType st e :
  UserHasJobAccess userID sceneID (w_db (world st)) = Err e ->
  GetNerfMetadata userID sceneID outputType st =
    (Err e,
     mkState (world st)
       (trace st ++ [Called (CUserHasJobAccess userID sceneID) (Err e)])).
Proof.
  intros HA. unfold GetNerfMetadata.
  now rewrite bind_run, verifyUserAccess_run, HA.
Qed.

(** C5: whenever the lookup does not answer that the user is authorized,
    whether it answers "not authorized" or fails, the call returns the
    error of the guard unchanged, which is [user.ErrUserNoAccess] in the
    first case and the error of the lookup in the second; the lookup is
    the only call made (no [GetNerf], no [GetTrainingConfig], no [Stat])
    and the world is left as it was. *)
Theorem GetNerfMetadata_not_authorized userID sceneID outputType st :
  let lookup := UserHasJobAccess userID sceneID (w_db (world st)) in
  lookup <> Ok true ->
  GetNerfMetadata userID sceneID outputType st =
    (Err (match lookup with Err e => e | Ok _ => ErrUserNoAccess end),
     mkState (world st)
       (trace st ++ [Called (CUserHasJobAccess userID sceneID) lookup]))
  /\ (verifyUserAccess userID sceneID st).1 =
       Err (match lookup with Err e => e | Ok _ => ErrUserNoAccess end).
Proof.
  intros lookup HA. subst lookup.
  rewrite verifyUserAccess_run.
  destruct (UserHasJobAccess userID sceneID (w_db (world st)))
    as [[|]|e] eqn:HL.
  - now contradiction HA.
  - split; [now apply GetNerfMetadata_denied | reflexivity].
  - split; [now apply GetNerfMetadata_lookup_failed | reflexivity].
Qed.

(** C8: the answer has an entry for exactly the declared output types
    when the filter is empty, for exactly the filter when it is a
    declared type, and each entry has exactly the iteration labels the
    registry holds for its type. *)
Theorem GetNerfMetadata_mapping userID sceneID outputType st nerf config :
  UserHasJobAccess userID sceneID (w_db (world st)) = Ok true ->
  GetNerf sceneID (w_db (world st)) = Ok nerf ->
  GetTrainingConfig sceneID (w_db (world st)) = Ok config ->
  let declared := scene.OutputTypes (scene.nerfTrainingConfig config) in
  exists metadata,
    (GetNerfMetadata userID sceneID outputType st).1 = Ok metadata
    /\ (outputType = "" ->
        dom (Resources metadata) = (list_to_set declared : gset string))
    /\ (outputType <> "" -> outputType ∈ declared ->
        dom (Resources metadata) = ({[ outputType ]} : gset string))
    /\ (forall ot inner,
          Resources metadata !! ot = Some inner ->
          dom inner = dom (GetFilePathsForOutputType nerf ot)).
Proof.
  intros HA HN HC declared.
  destruct (GetNerfMetadata_run userID sceneID outputType st) as [-> _].
  unfold metadata_of. rewrite HA, HN, HC. fold declared.
  eexists. split; [reflexivity|]. cbn [Resources].
  assert (Hdom : forall ot,
             ot ∈ dom (collect (w_fs (world st)) nerf outputType declared ∅)
             <-> ot ∈ declared /\ selected outputType ot = true).
  { intros ot. rewrite elem_of_dom, collect_lookup.
    destruct (decide _) as [H|H].
    - split; [intros _; exact H | intros _; eauto].
    - rewrite lookup_empty. split; [intros [? ?]; discriminate | tauto]. }
  split; [|split].
  - intros ->. apply set_eq. intros ot.
    rewrite Hdom, elem_of_list_to_set. unfold selected. cbn [String.eqb orb].
    tauto.
  - intros Hne Hin. apply set_eq. intros ot.
    rewrite Hdom, elem_of_singleton. unfold selected.
    apply String.eqb_neq in Hne. rewrite Hne. cbn [orb].
    rewrite String.eqb_eq. split.
    + now intros [_ ->].
    + intros ->. now split.
  - intros ot inner. rewrite collect_lookup.
    destruct (decide _) as [_|_]; [|now rewrite lookup_empty].
    intros [= <-]. apply dom_fmap_L.
Qed.

(** C9: the answer is a function of the store and the file system, and
    a call changes neither; so a second call that finds them unchanged
    returns what the first returned. *)
Theorem GetNerfMetadata_idempotent userID sceneID outputType st :
  w_fs (world (GetNerfMetadata userID sceneID outputType st).2)
    = w_fs (world st)
  /\ w_db (world (GetNerfMetadata userID sceneID outputType st).2)
    = w_db (world st)
  /\ forall st2,
       w_fs (world st2) = w_fs (world st) ->
       w_db (world st2) = w_db (world st) ->
       (GetNerfMetadata userID sceneID outputType st2).1
       = (GetNerfMetadata userID sceneID outputType st).1.
Proof.
  destruct (GetNerfMetadata_run userID sceneID outputType st)
    as [Hr (Hfs & Hdb & _)].
  split; [exact Hfs|]. split; [exact Hdb|].
  intros st2 H1 H2.
  destruct (GetNerfMetadata_run userID sceneID outputType st2) as [-> _].
  now rewrite Hr, H1, H2.
Qed.

(** C10: a non-empty filter that names no declared output type gives a
    successful answer with an empty mapping. *)
Theorem GetNerfMetadata_unmatched_filter userID sceneID outputType st
    nerf config :
  UserHasJobAccess userID sceneID (w_db (world st)) = Ok true ->
  GetNerf sceneID (w_db (world st)) = Ok nerf ->
  GetTrainingConfig sceneID (w_db (world st)) = Ok config ->
  outputType <> "" ->
  outputType ∉ scene.OutputTypes (scene.nerfTrainingConfig config) ->
  (GetNerfMetadata userID sceneID outputType st).1 = Ok (mkNerfMetadata ∅).
Proof.
  intros HA HN HC Hne Hnotin.
  destruct (GetNerfMetadata_run userID sceneID outputType st) as [-> _].
  unfold metadata_of. rewrite HA, HN, HC. do 2 f_equal.
  apply map_eq. intros ot. rewrite collect_lookup, lookup_empty.
  rewrite decide_False; [reflexivity|].
  intros [Hin Hsel]. unfold selected in Hsel.
  apply String.eqb_neq in Hne. rewrite Hne in Hsel. cbn [orb] in Hsel.
  apply String.eqb_eq in Hsel. subst ot. contradiction.
Qed.

End ChunkingEngine.

(** C1, where the code departs from it: for an artifact whose file is
    [2^63 - 1] bytes long, [GetNerfMetadata] reports a negative chunk
    count, which is not the ceiling of [size / 1048576]. *)
Theorem GetNerfMetadata_chunks_overflow :
  exists metadata inner,
    (GetNerfMetadata (Env := Mem.env) Mem.alice Mem.garden ""
       Mem.state_sparse).1 = Ok metadata
    /\ Resources metadata !! "splat_cloud" = Some inner
    /\ inner !! "30000"
       = Some (mkResourceInfo true 9223372036854775807 (-8796093022207)
                 1048575)
    /\ ~ is_ceil_div 9223372036854775807 1048576 (-8796093022207).
Proof.
  destruct (GetNerfMetadata_entry (Env := Mem.env) Mem.alice Mem.garden ""
              Mem.state_sparse Mem.garden_nerf Mem.garden_config
              "splat_cloud" "30000" "data/nerf/garden/splat_30000.ply")
    as (metadata & inner & Hrun & Hres & Hinner);
    try reflexivity.
  { apply list_elem_of_here. }
  exists metadata, inner.
  split; [exact Hrun|]. split; [exact Hres|].
  split; [|exact not_ceil_div_max_int].
  rewrite Hinner. reflexivity.
Qed.

(** A user who is not authorized and is not answered
    [user.ErrUserNoAccess]: the store has no document for [Mem.stranger],
    so the lookup fails, and its error is what [GetNerfMetadata]
    returns. *)
Lemma GetNerfMetadata_unknown_user_is_not_denied :
  UserHasJobAccess (Collaborators := Mem.env) Mem.stranger Mem.garden
    (w_db (world Mem.state0)) <> Ok true
  /\ (GetNerfMetadata (Env := Mem.env) Mem.stranger Mem.garden ""
        Mem.state0).1 = Err Mem.not_found
  /\ (GetNerfMetadata (Env := Mem.env) Mem.stranger Mem.garden ""
        Mem.state0).1 <> Err ErrUserNoAccess.
Proof.
  split; [|split].
  - vm_compute. discriminate.
  - reflexivity.
  - vm_compute. discriminate.
Qed.

(** * The submission pipeline *)

Section SubmissionPipeline.

Context `{Env : Collaborators}.

Arguments filepath.Join : simpl never.
Arguments filepath.Clean : simpl never.

(** One call of the body: case on what the collaborator answers. *)
Ltac run_call :=
  rewrite bind_call;
  match goal with
  | |- context [match exec ?c ?w with _ => _ end] =>
      destruct (exec c w) as [[?|?] ?] eqn:?
  end;
  cbn [world trace fst snd] in *.

Ltac run_publish :=
  rewrite bind_publish;
  match goal with
  | |- context [match exec ?c ?w with _ => _ end] =>
      destruct (exec c w) as [[?|?] ?] eqn:?
  end;
  cbn [world trace fst snd] in *.

(** C2: an upload whose file reports an empty name, or a name whose
    extension is not [.mp4], is refused with a validation error; the
    world is left as it was and the only call made is the [Stat] of the
    upload. *)
Theorem HandleIncomingVideo_rejects_invalid userID req st fileStat :
  common.Stat (common.File req) = Ok fileStat ->
  Name fileStat = "" \/ filepath.Ext (Name fileStat) <> ".mp4" ->
  exists e,
    ValidationError e
    /\ HandleIncomingVideo userID req st =
         (Err e,
          mkState (world st)
            (trace st ++
               [Called (CFileStat (common.File req)) (Ok fileStat)])).
Proof.
  intros HS Hbad.
  unfold HandleIncomingVideo. rewrite bind_run. unfold wrap_error.
  rewrite call_run, exec_FileStat, HS. cbn [fst snd].
  destruct (String.eqb (Name fileStat) "") eqn:HN.
  - exists (Errorf "file not received"). split; [constructor | reflexivity].
  - destruct Hbad as [Hempty | Hext].
    + apply String.eqb_neq in HN. contradiction.
    + apply String.eqb_neq in Hext. rewrite Hext. cbn [negb].
      exists (Errorf "improper file extension").
      split; [constructor | reflexivity].
Qed.

(** The trace of a successful submission. *)
Lemma HandleIncomingVideo_success userID req st jobID st' :
  HandleIncomingVideo userID req st = (Ok jobID, st') ->
  exists fileStat dst src written u closed,
    jobID = Hex (NewObjectID (w_gen (world st))).1
    /\ common.Open (common.File req) = Ok src
    /\ trace st' =
         (trace st ++
            submission_entries userID req fileStat
              (NewObjectID (w_gen (world st))).1 dst src written u closed)%list.
Proof.
  unfold HandleIncomingVideo.
  rewrite bind_run. unfold wrap_error. rewrite call_run, exec_FileStat.
  cbn [fst snd world trace].
  destruct (common.Stat (common.File req)) as [fileStat|e];
    [|intros H; discriminate H].
  destruct (String.eqb (Name fileStat) ""); [intros H; discriminate H|].
  destruct (negb (String.eqb (filepath.Ext (Name fileStat)) ".mp4"));
    [intros H; discriminate H|].
  run_call; [|intros H; discriminate H].
  run_call; [|intros H; discriminate H].
  run_call; [|intros H; discriminate H].
  rewrite defer_run.
  run_call; [|intros H; discriminate H].
  rewrite defer_run.
  run_call; [|intros H; discriminate H].
  run_call; [|intros H; discriminate H].
  run_call; [|intros H; discriminate H].
  run_call; [|intros H; discriminate H].
  run_publish; [|intros H; discriminate H].
  run_call; [|intros H; discriminate H].
  run_call; [|intros H; discriminate H].
  unfold ret. cbn [fst snd world trace].
  intros H. injection H as <- <-. cbn [trace].
  repeat match goal with u : unit |- _ => destruct u end.
  match goal with
  | H : exec CNewObjectID _ = _ |- _ =>
      apply (f_equal fst) in H; rewrite exec_NewObjectID in H;
      cbn [fst] in H; injection H as <-
  end.
  match goal with
  | H : exec (CFileOpen _) _ = _ |- _ =>
      rewrite exec_FileOpen in H; injection H as Hopen _
  end.
  rewrite ?exec_SrcClose. cbn [fst snd].
  rewrite (Join_video _ (Hex_plain _)).
  do 6 eexists. split; [reflexivity|]. split; [exact Hopen|].
  rewrite <- !app_assoc. cbn [app]. unfold submission_entries.
  reflexivity.
Qed.

(** *** The listed steps *)

(** A run of steps that ends in an error: the steps before the failing
    one all returned no error, each from the job the one before it left;
    the job returned is the one the failing step left; no later step
    ran. *)
Lemma in_order_stops (steps : list PipelineStep) j e j2 :
  in_order steps j = (Some e, j2) ->
  exists done failed rest j1,
    steps = (done ++ failed :: rest)%list
    /\ in_order done j = (None, j1)
    /\ failed j1 = (Some e, j2).
Proof.
  revert j. induction steps as [|step steps IH]; intros j H.
  - discriminate H.
  - cbn [in_order] in H. destruct (step j) as [[e'|] j'] eqn:Hstep.
    + injection H as -> ->. exists [], step, steps, j. now repeat split.
    + destruct (IH j' H) as (done & failed & rest & j1 & -> & Hdone & Hfail).
      exists (step :: done), failed, rest, j1.
      split; [reflexivity|]. split; [|exact Hfail].
      cbn [in_order]. now rewrite Hstep.
Qed.

(** Both sides of a run, one call at a time. *)
Lemma exec_LogErrorf format err w :
  exec (CLogErrorf format err) w
  = (Ok tt, mkWorld (w_fs w) (w_db w) (w_mq w) (w_gen w) (w_rt w)
              (w_log w ++ [(format, err)])).
Proof. reflexivity. Qed.

Ltac tidy :=
  repeat (progress
            (cbn [world trace fst snd j_state j_deferred at_state new_job
                    result_error in_order fold_left];
             rewrite ?exec_SrcClose, ?exec_LogErrorf)).

Ltac settle :=
  repeat (tidy;
          match goal with
          | H : exec ?c ?w = _ |- context [exec ?c ?w] => rewrite H
          end);
  tidy;
  repeat (match goal with
          | |- context [exec ?c ?w] => destruct (exec c w) as [? ?]
          end; tidy);
  rewrite <- ?app_assoc; cbn [app];
  reflexivity.

(** [HandleIncomingVideo] is the listed pipeline: on every request, from
    every state, it answers what [submit_in_order] answers, makes the
    same calls with the same arguments in the same order, and leaves the
    same world. *)
Lemma HandleIncomingVideo_submit_in_order userID req st :
  HandleIncomingVideo userID req st = submit_in_order userID req st.
Proof.
  unfold submit_in_order, validate, allocate_identity, listed_pipeline,
    run_deferred, stream_copy, enqueue, attribute_ownership, perform, call.
  unfold HandleIncomingVideo.
  rewrite bind_run. unfold wrap_error. rewrite call_run.
  rewrite !exec_FileStat. cbn [fst snd world trace].
  destruct (common.Stat (common.File req)) as [fileStat|e]; [|reflexivity].
  destruct (String.eqb (Name fileStat) ""); [reflexivity|].
  destruct (String.eqb (filepath.Ext (Name fileStat)) ".mp4");
    cbn [negb]; [|reflexivity].
  run_call; [|settle].
  match goal with
  | |- context [filepath.Join [videosFolder; (Hex ?o ++ ".mp4")%string]] =>
      rewrite (Join_video (Hex o) (Hex_plain o))
  end.
  run_call; [|settle].
  run_call; [|settle].
  rewrite defer_run.
  run_call; [|settle].
  rewrite defer_run.
  run_call; [|settle].
  run_call; [|settle].
  run_call; [|settle].
  run_call; [|settle].
  run_publish; [|settle].
  run_call; [|settle].
  run_call; [|settle].
  unfold ret. settle.
Qed.

(** C3: a submission is its listed steps run in order.  Whatever the
    request and the state, [HandleIncomingVideo] answers what the listed
    pipeline answers, with the same calls and the same world.  On a
    request that passes validation: when it returns an identifier, every
    listed step returned no error, each from the job the step before it
    left; when it returns an error, the steps before the failing one all
    returned no error, the error is the one the failing step returned,
    no later step ran, and the state returned is the one the failing
    step left, with only the deferred closes run on it: what the earlier
    steps wrote is neither removed nor rewritten. *)
Theorem HandleIncomingVideo_steps_in_order userID req st fileStat :
  common.Stat (common.File req) = Ok fileStat ->
  Name fileStat <> "" ->
  filepath.Ext (Name fileStat) = ".mp4" ->
  let run := HandleIncomingVideo userID req st in
  let oid := (NewObjectID (w_gen (world st))).1 in
  let steps := listed_pipeline userID req (Hex oid) in
  let allocated :=
    mkState (exec CNewObjectID (world st)).2
      (trace st ++ [Called (CFileStat (common.File req)) (Ok fileStat);
                    Called CNewObjectID (Ok oid)]) in
  run = submit_in_order userID req st
  /\ match run.1 with
     | Ok jobID =>
         jobID = Hex oid
         /\ exists j,
              in_order steps (new_job allocated) = (None, j)
              /\ run.2 = run_deferred j
     | Err e =>
         exists done failed rest j1 j2,
           steps = (done ++ failed :: rest)%list
           /\ in_order done (new_job allocated) = (None, j1)
           /\ failed j1 = (Some e, j2)
           /\ run.2 = run_deferred j2
     end.
Proof.
  intros HS HN HE run oid steps allocated.
  split; [apply HandleIncomingVideo_submit_in_order|].
  subst run. rewrite HandleIncomingVideo_submit_in_order.
  unfold submit_in_order, validate, allocate_identity.
  rewrite !call_run, exec_FileStat, HS. cbn [fst snd world trace].
  apply String.eqb_neq in HN. rewrite HN, HE.
  change (String.eqb ".mp4" ".mp4") with true. cbv iota.
  rewrite call_run, exec_NewObjectID. cbn [fst snd world trace].
  rewrite <- app_assoc. cbn [app].
  fold oid. fold steps. fold allocated.
  destruct (in_order steps (new_job allocated)) as [[e|] j] eqn:Hrun;
    cbn [fst snd].
  - destruct (in_order_stops _ _ _ _ Hrun)
      as (done & failed & rest & j1 & Hsteps & Hdone & Hfail).
    exists done, failed, rest, j1, j. now repeat split.
  - split; [reflexivity|]. exists j. now split.
Qed.

(** *** Identifiers across requests *)







End SubmissionPipeline.

(** * The properties on the in-memory environment *)

Lemma HandleIncomingVideo_rejects_invalid_witness :
  exists e,
    ValidationError e
    /\ HandleIncomingVideo (Env := Mem.env) Mem.alice (Mem.request "clip.MP4")
         Mem.state0 =
         (Err e,
          mkState (world Mem.state0)
            (trace Mem.state0 ++
               [Called (CFileStat (common.File (Mem.request "clip.MP4")))
                  (Ok (mkFileInfo "clip.MP4" 3))])).
Proof.
  apply (HandleIncomingVideo_rejects_invalid (Env := Mem.env)).
  - reflexivity.
  - right. vm_compute. discriminate.
Defined.

Lemma HandleIncomingVideo_steps_in_order_witness :
  let st := MemCases.state_queue_closed in
  let req := Mem.request "clip.mp4" in
  let jobID := "000000000000000000000064" in
  let run := HandleIncomingVideo (Env := Mem.env) Mem.alice req st in
  let allocated :=
    mkState (Env := Mem.env) (exec CNewObjectID (world st)).2
      (trace st ++ [Called (CFileStat (common.File req))
                      (Ok (mkFileInfo "clip.mp4" 3));
                    Called CNewObjectID (Ok (Mem.be_bytes 12 100))]) in
  run = submit_in_order (Env := Mem.env) Mem.alice req st
  /\ (exists done failed rest j1 j2,
        listed_pipeline (Env := Mem.env) Mem.alice req jobID
        = (done ++ failed :: rest)%list
        /\ in_order done (new_job allocated) = (None, j1)
        /\ failed j1 = (Some (ErrExternal "channel closed"), j2)
        /\ run.2 = run_deferred j2)
  /\ run.1 = Err (ErrExternal "channel closed")
  /\ Mem.files (w_fs (world run.2)) !! video_path jobID
     = Some [Byte.x01; Byte.x02; Byte.x03]
  /\ Mem.videos (w_db (world run.2)) !! jobID
     = Some (scene.mkVideo (video_path jobID))
  /\ Mem.names (w_db (world run.2)) !! jobID = Some "garden"
  /\ Mem.users (w_db (world run.2)) !! Hex Mem.alice = Some [Hex Mem.garden].
Proof.
  intros st req jobID run allocated.
  assert (HN : Name (mkFileInfo "clip.mp4" 3) <> "") by discriminate.
  pose proof (HandleIncomingVideo_steps_in_order (Env := Mem.env) Mem.alice
                req st (mkFileInfo "clip.mp4" 3) eq_refl HN eq_refl) as H.
  cbv zeta in H. destruct H as [H1 H2].
  assert (E : run.1 = Err (ErrExternal "channel closed")) by reflexivity.
  fold run in H2. rewrite E in H2.
  split; [exact H1|]. split; [exact H2|]. split; [exact E|].
  repeat split; reflexivity.
Defined.

Lemma GetNerfMetadata_not_authorized_witness :
  UserHasJobAccess (Collaborators := Mem.env) Mem.bob Mem.garden
    (w_db (world MemCases.state_down)) <> Ok true
  /\ GetNerfMetadata (Env := Mem.env) Mem.bob Mem.garden ""
       MemCases.state_down =
       (Err Mem.unavailable,
        mkState (world MemCases.state_down)
          (trace MemCases.state_down ++
             [Called (CUserHasJobAccess Mem.bob Mem.garden)
                (Err Mem.unavailable)]))
  /\ (verifyUserAccess (Env := Mem.env) Mem.bob Mem.garden
        MemCases.state_down).1 = Err Mem.unavailable.
Proof.
  assert (H : UserHasJobAccess (Collaborators := Mem.env) Mem.bob Mem.garden
                (w_db (world MemCases.state_down)) <> Ok true)
    by (vm_compute; discriminate).
  split; [exact H|].
  exact (GetNerfMetadata_not_authorized (Env := Mem.env) Mem.bob Mem.garden ""
           MemCases.state_down H).
Defined.

Lemma GetNerfMetadata_empty_file_witness :
  exists metadata inner,
    (GetNerfMetadata (Env := Mem.env) Mem.alice Mem.garden "" Mem.state0).1
    = Ok metadata
    /\ Resources metadata !! "video" = Some inner
    /\ inner !! "7000" = Some (mkResourceInfo true 0 0 1048576).
Proof.
  apply (GetNerfMetadata_empty_file (Env := Mem.env) Mem.alice Mem.garden ""
           Mem.state0 Mem.garden_nerf Mem.garden_config "video" "7000"
           "data/nerf/garden/video_7000.mp4"
           (mkFileInfo "video_7000.mp4" 0)).
  - reflexivity.
  - reflexivity.
  - reflexivity.
  - apply list_elem_of_further, list_elem_of_here.
  - reflexivity.
  - reflexivity.
  - reflexivity.
  - reflexivity.
Defined.


Lemma GetNerfMetadata_mapping_witness :
  exists metadata,
    (GetNerfMetadata (Env := Mem.env) Mem.alice Mem.garden "video" Mem.state0).1
    = Ok metadata
    /\ ("video" = "" ->
        dom (Resources metadata)
        = (list_to_set ["splat_cloud"; "video"] : gset string))
    /\ ("video" <> "" -> "video" ∈ ["splat_cloud"; "video"] ->
        dom (Resources metadata) = ({[ "video" ]} : gset string))
    /\ (forall ot inner,
          Resources metadata !! ot = Some inner ->
          dom inner
          = dom (GetFilePathsForOutputType (Collaborators := Mem.env)
                   Mem.garden_nerf ot)).
Proof.
  apply (GetNerfMetadata_mapping (Env := Mem.env) Mem.alice Mem.garden
           "video" Mem.state0 Mem.garden_nerf Mem.garden_config).
  - reflexivity.
  - reflexivity.
  - reflexivity.
Defined.

Lemma GetNerfMetadata_idempotent_witness :
  (GetNerfMetadata (Env := Mem.env) Mem.alice Mem.garden ""
     (mkState Mem.world0
        [Called (CUserHasJobAccess Mem.bob Mem.garden) (Ok false)])).1
  = (GetNerfMetadata (Env := Mem.env) Mem.alice Mem.garden "" Mem.state0).1.
Proof.
  apply (GetNerfMetadata_idempotent (Env := Mem.env) Mem.alice Mem.garden ""
           Mem.state0).
  - reflexivity.
  - reflexivity.
Defined.

Lemma GetNerfMetadata_unmatched_filter_witness :
  (GetNerfMetadata (Env := Mem.env) Mem.alice Mem.garden "depth" Mem.state0).1
  = Ok (mkNerfMetadata ∅).
Proof.
  apply (GetNerfMetadata_unmatched_filter (Env := Mem.env) Mem.alice
           Mem.garden "depth" Mem.state0 Mem.garden_nerf Mem.garden_config).
  - reflexivity.
  - reflexivity.
  - reflexivity.
  - discriminate.
  - intros H.
    apply elem_of_cons in H as [H|H]; [discriminate H|].
    apply elem_of_cons in H as [H|H]; [discriminate H|].
    now apply elem_of_nil in H.
Defined.

(** * Further properties of the chunk rule *)

(** X1: as long as [fileSize + 1024*1024 - 1] fits in an [int64], the
    chunks reported add up to the file: all but the last are full, the
    last holds between 1 and 1048576 bytes, and a non-empty file has at
    least one chunk. *)
Theorem resourceInfo_chunks_cover n :
  0 <= n <= Int64.max_int - 1048575 ->
  (Chunks (resourceInfo n) - 1) * 1048576 + LastChunkSize (resourceInfo n) = n
  /\ 1 <= LastChunkSize (resourceInfo n) <= 1048576
  /\ (0 < n -> 1 <= Chunks (resourceInfo n)).
Proof.
  intros H. rewrite resourceInfo_below_overflow by exact H.
  cbn [Chunks LastChunkSize].
  unfold Int64.max_int in H. change (2 ^ 63) with 9223372036854775808 in H.
  pose proof (Z.div_mod (n + 1048575) 1048576 ltac:(lia)) as Hq.
  pose proof (Z.mod_pos_bound (n + 1048575) 1048576 ltac:(lia)) as Hr.
  pose proof (Z.div_mod n 1048576 ltac:(lia)) as Hq0.
  pose proof (Z.mod_pos_bound n 1048576 ltac:(lia)) as Hr0.
  destruct (Z.eqb_spec (n mod 1048576) 0) as [E|E]; lia.
Qed.

Lemma resourceInfo_chunks_cover_witness :
  (Chunks (resourceInfo 1500000) - 1) * 1048576
    + LastChunkSize (resourceInfo 1500000) = 1500000
  /\ 1 <= LastChunkSize (resourceInfo 1500000) <= 1048576
  /\ (0 < 1500000 -> 1 <= Chunks (resourceInfo 1500000)).
Proof. apply resourceInfo_chunks_cover. vm_compute. split; discriminate. Defined.

(** X2: for a size an [int64] can hold, the chunk count is negative
    exactly when the size exceeds [2^63 - 2^20]: the bound of X1 is the
    whole range in which the count is meaningful. *)
Theorem resourceInfo_chunks_sign n :
  0 <= n <= Int64.max_int ->
  (0 <= Chunks (resourceInfo n) <-> n <= Int64.max_int - 1048575).
Proof.
  intros H. split.
  - intros Hc.
    destruct (Z_le_gt_dec n (Int64.max_int - 1048575)) as [L|G]; [exact L|].
    exfalso. revert Hc. unfold Int64.max_int in *.
    change (2 ^ 63) with 9223372036854775808 in *.
    unfold resourceInfo. cbn [Chunks].
    unfold Int64.add, Int64.sub, Int64.div, Int64.to_int.
    change (1024 * 1024) with 1048576.
    rewrite wrap64_sub_idemp.
    assert (W : Int64.wrap64 (n + 1048576 - 1)
                = n + 1048575 - 18446744073709551616).
    { unfold Int64.wrap64. change (2 ^ 63) with 9223372036854775808.
      change (2 ^ 64) with 18446744073709551616.
      replace (n + 1048576 - 1 + 9223372036854775808)
        with (n + 1048575 - 9223372036854775808
              + 1 * 18446744073709551616) by lia.
      rewrite Z_mod_plus_full, Z.mod_small by lia. lia. }
    rewrite W.
    set (a := 18446744073709551616 - (n + 1048575)).
    replace (n + 1048575 - 18446744073709551616) with (- a) by (unfold a; lia).
    assert (Ha : 9223372036853727234 <= a <= 9223372036854775808)
      by (unfold a; lia).
    rewrite Z.quot_opp_l by lia. rewrite Z.quot_div_nonneg by lia.
    assert (Hd : 8796093022207 <= a / 1048576 <= 8796093022208).
    { split.
      - apply Z.div_le_lower_bound; lia.
      - apply Z.div_le_upper_bound; lia. }
    assert (R : forall z,
               - 9223372036854775808 <= z <= 9223372036854775807 ->
               Int64.wrap64 z = z).
    { intros z Hz. apply wrap64_in_range.
      unfold Int64.in_range, Int64.min_int, Int64.max_int.
      change (2 ^ 63) with 9223372036854775808. lia. }
    do 2 rewrite (R (- (a / 1048576))) by lia. lia.
  - intros L. rewrite resourceInfo_below_overflow by lia.
    cbn [Chunks]. apply Z.div_pos; lia.
Qed.

Lemma resourceInfo_chunks_sign_witness :
  0 <= Chunks (resourceInfo 9223372036853727233)
  <-> 9223372036853727233 <= Int64.max_int - 1048575.
Proof. apply resourceInfo_chunks_sign. vm_compute. split; discriminate. Defined.

(** * Further properties of [GetNerfMetadata] *)

Section MetadataAnswers.

Context `{Env : Collaborators}.

(** X3: an artifact whose path cannot be stat'ed is reported as
    [{Exists: false}] with size, chunk count and last chunk size 0,
    whatever the error of the stat. *)
Theorem GetNerfMetadata_missing_file userID sceneID outputType st nerf config
    ot iteration path e :
  UserHasJobAccess userID sceneID (w_db (world st)) = Ok true ->
  GetNerf sceneID (w_db (world st)) = Ok nerf ->
  GetTrainingConfig sceneID (w_db (world st)) = Ok config ->
  ot ∈ scene.OutputTypes (scene.nerfTrainingConfig config) ->
  selected outputType ot = true ->
  GetFilePathsForOutputType nerf ot !! iteration = Some path ->
  os_Stat path (w_fs (world st)) = Err e ->
  exists metadata inner,
    (GetNerfMetadata userID sceneID outputType st).1 = Ok metadata
    /\ Resources metadata !! ot = Some inner
    /\ inner !! iteration = Some (mkResourceInfo false 0 0 0).
Proof.
  intros HA HN HC Hot Hsel Hpath Hstat.
  destruct (GetNerfMetadata_entry userID sceneID outputType st nerf config
              ot iteration path HA HN HC Hot Hsel Hpath)
    as (metadata & inner & Hrun & Hres & Hinner).
  exists metadata, inner. split; [exact Hrun|]. split; [exact Hres|].
  rewrite Hinner. unfold probe. now rewrite Hstat.
Qed.

(** X4: nothing in the answer is made up: every entry sits under a
    declared output type the filter selects and under an iteration label
    of the registry, and is what the stat of the registered path gives. *)
Theorem GetNerfMetadata_entries_registered userID sceneID outputType st
    metadata ot inner iteration info :
  (GetNerfMetadata userID sceneID outputType st).1 = Ok metadata ->
  Resources metadata !! ot = Some inner ->
  inner !! iteration = Some info ->
  exists nerf config path,
    GetNerf sceneID (w_db (world st)) = Ok nerf
    /\ GetTrainingConfig sceneID (w_db (world st)) = Ok config
    /\ ot ∈ scene.OutputTypes (scene.nerfTrainingConfig config)
    /\ (outputType = "" \/ outputType = ot)
    /\ GetFilePathsForOutputType nerf ot !! iteration = Some path
    /\ info = probe (w_fs (world st)) path.
Proof.
  destruct (GetNerfMetadata_run userID sceneID outputType st) as [-> _].
  unfold metadata_of.
  destruct (UserHasJobAccess userID sceneID (w_db (world st))) as [[|]|e];
    try discriminate.
  destruct (GetNerf sceneID (w_db (world st))) as [nerf|e]; try discriminate.
  destruct (GetTrainingConfig sceneID (w_db (world st))) as [config|e];
    try discriminate.
  intros [= <-]. cbn [Resources]. rewrite collect_lookup.
  destruct (decide _) as [[Hin Hsel]|_]; [|now rewrite lookup_empty].
  intros [= <-]. rewrite lookup_fmap.
  destruct (GetFilePathsForOutputType nerf ot !! iteration) as [path|] eqn:Hp;
    [|discriminate].
  intros [= <-]. exists nerf, config, path.
  repeat split; try reflexivity; try assumption.
  unfold selected in Hsel. apply orb_prop in Hsel as [H|H];
    apply String.eqb_eq in H; [now left | now right].
Qed.

(** X5: when the registry cannot be fetched, the error of [GetNerf]
    comes back; the training configuration is not asked for and no file
    is stat'ed. *)
Theorem GetNerfMetadata_registry_unavailable userID sceneID outputType st e :
  UserHasJobAccess userID sceneID (w_db (world st)) = Ok true ->
  GetNerf sceneID (w_db (world st)) = Err e ->
  GetNerfMetadata userID sceneID outputType st =
    (Err e,
     mkState (world st)
       (trace st ++
          [Called (CUserHasJobAccess userID sceneID) (Ok true);
           Called (CGetNerf sceneID) (Err e)])).
Proof.
  intros HA HN. unfold GetNerfMetadata.
  rewrite bind_run, verifyUserAccess_run, HA, bind_run.
  rewrite (call_read _ (GetNerf sceneID (w_db (world st)))) by reflexivity.
  rewrite HN. cbn [world trace]. now rewrite <- app_assoc.
Qed.

(** X6: when the training configuration cannot be fetched, the error of
    [GetTrainingConfig] comes back and no file is stat'ed. *)
Theorem GetNerfMetadata_config_unavailable userID sceneID outputType st
    nerf e :
  UserHasJobAccess userID sceneID (w_db (world st)) = Ok true ->
  GetNerf sceneID (w_db (world st)) = Ok nerf ->
  GetTrainingConfig sceneID (w_db (world st)) = Err e ->
  GetNerfMetadata userID sceneID outputType st =
    (Err e,
     mkState (world st)
       (trace st ++
          [Called (CUserHasJobAccess userID sceneID) (Ok true);
           Called (CGetNerf sceneID) (Ok nerf);
           Called (CGetTrainingConfig sceneID) (Err e)])).
Proof.
  intros HA HN HC. unfold GetNerfMetadata.
  rewrite bind_run, verifyUserAccess_run, HA, bind_run.
  rewrite (call_read _ (GetNerf sceneID (w_db (world st)))) by reflexivity.
  rewrite HN. cbn [world trace]. rewrite bind_run.
  rewrite (call_read _ (GetTrainingConfig sceneID (w_db (world st))))
    by reflexivity.
  rewrite HC. cbn [world trace]. now rewrite <- !app_assoc.
Qed.

End MetadataAnswers.

Section MetadataCalls.

Context `{Env : Collaborators}.

Lemma registered_stat_weaken fs nerf outputType ot (ots : list string) e :
  registered_stat fs nerf outputType ots e ->
  registered_stat fs nerf outputType (ot :: ots) e.
Proof.
  intros (o & it & p & Hin & Hsel & Hp & ->).
  exists o, it, p. repeat split; try assumption.
  now apply elem_of_cons; right.
Qed.

(** The calls of the outer loop: stats of registered paths only. *)
Lemma outer_loop_trace nerf outputType (ots : list string) resources st :
  exists stats,
    trace (for_each ots
             (fun resources ot =>
                if String.eqb outputType "" || String.eqb outputType ot then
                  let resources := <[ot := ∅]> resources in
                  let filePaths := GetFilePathsForOutputType nerf ot in
                  bind (range filePaths)
                    (fun entries =>
                       for_each entries
                         (fun resources '(iteration, path) =>
                            bind (stat_resource path)
                              (fun info =>
                                 ret (set_resource ot iteration info
                                        resources)))
                         resources)
                else ret resources)
             resources st).2
    = (trace st ++ stats)%list
    /\ Forall (registered_stat (w_fs (world st)) nerf outputType ots) stats.
Proof.
  revert resources st. induction ots as [|ot ots IH]; intros resources st.
  - exists []. split; [now rewrite app_nil_r | constructor].
  - cbn [for_each]. rewrite bind_run.
    destruct (String.eqb outputType "" || String.eqb outputType ot) eqn:Hsel.
    + cbv zeta. rewrite bind_run. unfold range at 1.
      pose proof (range_order_perm (w_rt (world st))
                    (GetFilePathsForOutputType nerf ot)) as Hperm.
      destruct (range_order (w_rt (world st))
                  (GetFilePathsForOutputType nerf ot)) as [l rt'].
      cbn [fst] in Hperm.
      rewrite inner_loop_run. cbn [world trace w_fs].
      match goal with
      | |- exists stats, trace (for_each _ _ ?res ?st1).2 = _ /\ _ =>
          destruct (IH res st1) as (stats & Htr & Hst)
      end.
      cbn [world trace w_fs] in Htr, Hst.
      eexists. split; [rewrite Htr, <- app_assoc; reflexivity|].
      apply Forall_app. split.
      * apply Forall_forall. intros e He.
        apply list_elem_of_fmap in He as ([it p] & -> & Hin).
        exists ot, it, p. repeat split.
        -- apply list_elem_of_here.
        -- exact Hsel.
        -- apply elem_of_map_to_list. now rewrite <- Hperm.
      * eapply Forall_impl; [exact Hst|].
        intros e. apply registered_stat_weaken.
    + unfold ret at 1.
      destruct (IH resources st) as (stats & Htr & Hst).
      exists stats. split; [exact Htr|].
      eapply Forall_impl; [exact Hst|].
      intros e. apply registered_stat_weaken.
Qed.

(** X7: an authorized call that gets the registry and the configuration
    makes the three lookups and then only stats, each of a path the
    registry holds for a declared output type the filter selects; it
    writes nothing: store, queue, log, file system and generator are as
    before. *)
Theorem GetNerfMetadata_reads_only userID sceneID outputType st nerf config :
  UserHasJobAccess userID sceneID (w_db (world st)) = Ok true ->
  GetNerf sceneID (w_db (world st)) = Ok nerf ->
  GetTrainingConfig sceneID (w_db (world st)) = Ok config ->
  exists stats,
    new_entries st (GetNerfMetadata userID sceneID outputType st).2
    = ([Called (CUserHasJobAccess userID sceneID) (Ok true);
        Called (CGetNerf sceneID) (Ok nerf);
        Called (CGetTrainingConfig sceneID) (Ok config)] ++ stats)%list
    /\ Forall (registered_stat (w_fs (world st)) nerf outputType
                 (scene.OutputTypes (scene.nerfTrainingConfig config))) stats
    /\ same_stores (world st)
         (world (GetNerfMetadata userID sceneID outputType st).2).
Proof.
  intros HA HN HC.
  destruct (GetNerfMetadata_run userID sceneID outputType st) as [_ Hsame].
  cut (exists stats,
          new_entries st (GetNerfMetadata userID sceneID outputType st).2
          = ([Called (CUserHasJobAccess userID sceneID) (Ok true);
              Called (CGetNerf sceneID) (Ok nerf);
              Called (CGetTrainingConfig sceneID) (Ok config)] ++ stats)%list
          /\ Forall (registered_stat (w_fs (world st)) nerf outputType
                       (scene.OutputTypes (scene.nerfTrainingConfig config)))
               stats).
  { intros (stats & H1 & H2). exists stats.
    split; [exact H1|]. split; [exact H2 | exact Hsame]. }
  clear Hsame. unfold new_entries, GetNerfMetadata.
  rewrite bind_run, verifyUserAccess_run, HA, bind_run.
  rewrite (call_read _ (GetNerf sceneID (w_db (world st)))) by reflexivity.
  rewrite HN. cbn [world trace]. rewrite bind_run.
  rewrite (call_read _ (GetTrainingConfig sceneID (w_db (world st))))
    by reflexivity.
  rewrite HC. cbn [world trace]. rewrite bind_run.
  match goal with
  | |- context [for_each ?ots ?body ?res ?st1] =>
      destruct (outer_loop_trace nerf outputType ots res st1)
        as (stats & Htr & Hst);
      destruct (outer_loop_run nerf outputType ots res st1)
        as (st' & Hrun & _);
      set (loop := for_each ots body res st1) in *;
      assert (Hloop : loop = (Ok (collect (w_fs (world st1)) nerf outputType
                                    ots res), st')) by exact Hrun;
      assert (Htr' : trace loop.2 = (trace st1 ++ stats)%list) by exact Htr
  end.
  exists stats. split; [|exact Hst].
  rewrite Hloop in Htr' |- *. unfold ret. cbn [fst snd trace] in *.
  rewrite Htr'. rewrite <- !app_assoc. cbn [app].
  apply drop_app_length.
Qed.

(** X8: a filter only selects: under a non-empty filter the answer has
    no entry for any other output type, and its entry for the filter is
    the entry an unfiltered call gives for that type. *)
Theorem GetNerfMetadata_filter_selects userID sceneID outputType st
    filtered everything :
  outputType <> "" ->
  (GetNerfMetadata userID sceneID outputType st).1 = Ok filtered ->
  (GetNerfMetadata userID sceneID "" st).1 = Ok everything ->
  Resources filtered !! outputType = Resources everything !! outputType
  /\ forall ot, ot <> outputType -> Resources filtered !! ot = None.
Proof.
  intros Hne.
  destruct (GetNerfMetadata_run userID sceneID outputType st) as [-> _].
  destruct (GetNerfMetadata_run userID sceneID "" st) as [-> _].
  unfold metadata_of.
  destruct (UserHasJobAccess userID sceneID (w_db (world st))) as [[|]|e];
    try discriminate.
  destruct (GetNerf sceneID (w_db (world st))) as [nerf|e]; try discriminate.
  destruct (GetTrainingConfig sceneID (w_db (world st))) as [config|e];
    try discriminate.
  intros [= <-] [= <-]. cbn [Resources].
  apply String.eqb_neq in Hne.
  split.
  - rewrite !collect_lookup. unfold selected.
    rewrite String.eqb_refl, orb_true_r. cbn [String.eqb orb].
    reflexivity.
  - intros ot Hot. rewrite collect_lookup, lookup_empty.
    rewrite decide_False; [reflexivity|].
    intros [_ Hsel]. unfold selected in Hsel. rewrite Hne in Hsel.
    cbn [orb] in Hsel. apply String.eqb_eq in Hsel. congruence.
Qed.

(** X9: the answer depends on which output types are declared, not on
    their order in the configuration nor on how often one is listed. *)
Theorem GetNerfMetadata_declared_as_set userID sceneID outputType st1 st2
    nerf config1 config2 :
  w_fs (world st2) = w_fs (world st1) ->
  UserHasJobAccess userID sceneID (w_db (world st1)) = Ok true ->
  UserHasJobAccess userID sceneID (w_db (world st2)) = Ok true ->
  GetNerf sceneID (w_db (world st1)) = Ok nerf ->
  GetNerf sceneID (w_db (world st2)) = Ok nerf ->
  GetTrainingConfig sceneID (w_db (world st1)) = Ok config1 ->
  GetTrainingConfig sceneID (w_db (world st2)) = Ok config2 ->
  (forall ot,
     ot ∈ scene.OutputTypes (scene.nerfTrainingConfig config1)
     <-> ot ∈ scene.OutputTypes (scene.nerfTrainingConfig config2)) ->
  (GetNerfMetadata userID sceneID outputType st2).1
  = (GetNerfMetadata userID sceneID outputType st1).1.
Proof.
  intros Hfs HA1 HA2 HN1 HN2 HC1 HC2 Hset.
  destruct (GetNerfMetadata_run userID sceneID outputType st1) as [-> _].
  destruct (GetNerfMetadata_run userID sceneID outputType st2) as [-> _].
  unfold metadata_of. rewrite HA1, HA2, HN1, HN2, HC1, HC2, Hfs.
  do 2 f_equal. apply map_eq. intros ot. rewrite !collect_lookup.
  destruct (decide (ot ∈ scene.OutputTypes (scene.nerfTrainingConfig config2)
                    /\ selected outputType ot = true)) as [[Hin Hsel]|Hn].
  - rewrite decide_True; [reflexivity|]. split; [now apply Hset | exact Hsel].
  - rewrite decide_False; [reflexivity|].
    intros [Hin Hsel]. apply Hn. split; [now apply Hset | exact Hsel].
Qed.

End MetadataCalls.

(** * Further properties of [HandleIncomingVideo] *)

Lemma append_empty_r (s : string) : s ++ "" = s.
Proof.
  induction s as [|c s IH]; [reflexivity|].
  change (String c (s ++ "") = String c s). now rewrite IH.
Qed.

(** What [Ext] returns is a suffix of the path. *)
Lemma ext_scan_suffix path r :
  filepath.ext_scan path = Some r -> exists pre, path = pre ++ r.
Proof.
  revert r. induction path as [|c path IH]; intros r; [discriminate|].
  simpl. destruct (filepath.ext_scan path) as [r'|] eqn:E.
  - intros [= <-]. destruct (IH r' eq_refl) as [pre ->].
    now exists (String c pre).
  - destruct (filepath.IsPathSeparator c).
    + intros [= <-]. exists (String c path). now rewrite append_empty_r.
    + destruct (Ascii.eqb c "."); [|discriminate].
      intros [= <-]. now exists "".
Qed.

(** The names whose extension is [.mp4] are the names that end in
    [.mp4]. *)
Lemma Ext_mp4_iff name :
  filepath.Ext name = ".mp4" <-> exists s, name = s ++ ".mp4".
Proof.
  split.
  - unfold filepath.Ext.
    destruct (filepath.ext_scan name) as [r|] eqn:E; [|discriminate].
    intros H. change (r = ".mp4") in H. subst r.
    now apply ext_scan_suffix.
  - intros [s ->]. now apply (Ext_app_dot s "mp4").
Qed.

Section SubmissionOutcomes.

Context `{Env : Collaborators}.

Arguments filepath.Join : simpl never.
Arguments filepath.Clean : simpl never.

(** A call on the upload, the generator or the file system leaves the
    store, the queue and the log alone. *)
Lemma exec_storage_frame {A} (c : Call A) w :
  storage_call c = true -> db_mq_log (exec c w).2 = db_mq_log w.
Proof.
  destruct c; cbn [storage_call]; try discriminate; intros _;
    cbn [exec]; unfold on_fs, errw;
    repeat match goal with
           | |- context [let '(_, _) := ?x in _] => destruct x as [? ?]
           end;
    reflexivity.
Qed.

(** Only the logger call adds to the log. *)
Lemma exec_log {A} (c : Call A) w :
  w_log (exec c w).2 = (w_log w ++ logged c)%list.
Proof.
  destruct c; cbn [exec logged]; unfold on_fs, on_db, on_mq, errw;
    repeat match goal with
           | |- context [let '(_, _) := ?x in _] => destruct x as [? ?]
           end;
    cbn [snd w_log]; now rewrite ?app_nil_r.
Qed.

Ltac run_call :=
  rewrite bind_call;
  match goal with
  | |- context [match exec ?c ?w with _ => _ end] =>
      destruct (exec c w) as [[?|?] ?] eqn:?
  end;
  cbn [world trace fst snd] in *.

Ltac run_publish :=
  rewrite bind_publish;
  match goal with
  | |- context [match exec ?c ?w with _ => _ end] =>
      destruct (exec c w) as [[?|?] ?] eqn:?
  end;
  cbn [world trace fst snd] in *.

(** Read an equation on [exec] as one on the collaborator it runs. *)
Ltac open_exec :=
  match goal with
  | H : exec _ _ = (Ok _, _) |- _ =>
      cbn [exec] in H; unfold on_fs, on_db, on_mq, errw in H;
      cbn [w_fs w_db w_mq w_gen w_rt w_log] in H;
      repeat match type of H with
             | context [let '(_, _) := ?x in _] =>
                 destruct x as [? ?] eqn:?
             end;
      injection H as ? ?; subst
  end;
  repeat match goal with
         | H : (let '(_, _) := ?x in _) = (Ok _, _) |- _ =>
             destruct x as [[?|] ?] eqn:?; cbn [of_error] in H;
             [discriminate H | injection H as ? ?; subst]
         end.

Ltac refuse := let Hx := fresh "Hx" in intros Hx; discriminate Hx.

(** The worlds a run went through, written from the world it started
    in. *)
Ltac unroll_worlds :=
  repeat match goal with
         | H : exec ?c ?w = (_, ?w') |- _ =>
             apply (f_equal snd) in H; cbn [snd] in H; subst w'
         end.

(** The entries a run added, as a list. *)
Ltac list_new_entries :=
  unfold new_entries, fail, ret in *; cbn [fst snd trace] in *;
  rewrite <- ?app_assoc in *; cbn [app] in *;
  rewrite ?drop_app_length in *.

(** X10: when the upload's [Stat()] fails, the error comes back wrapped
    as "failed to get file stats"; nothing else is called and the world
    is left as it was. *)
Theorem HandleIncomingVideo_stat_failure userID req st e :
  common.Stat (common.File req) = Err e ->
  HandleIncomingVideo userID req st =
    (Err (Wrapf "failed to get file stats" e),
     mkState (world st)
       (trace st ++ [Called (CFileStat (common.File req)) (Err e)])).
Proof.
  intros HS. unfold HandleIncomingVideo. rewrite bind_run.
  unfold wrap_error. now rewrite call_run, exec_FileStat, HS.
Qed.

(** X11: the validation lets through exactly the uploads whose reported
    name ends in [.mp4] (so the empty name never passes, and neither does
    [.MP4]): an ObjectID is generated for those names and for no
    other. *)
Theorem HandleIncomingVideo_accepts_mp4_names userID req st fileStat :
  common.Stat (common.File req) = Ok fileStat ->
  ((exists s, Name fileStat = s ++ ".mp4")
   <-> KNewObjectID
       ∈ kind_of <$> new_entries st (HandleIncomingVideo userID req st).2).
Proof.
  intros HS.
  unfold HandleIncomingVideo.
  rewrite bind_run. unfold wrap_error. rewrite call_run, exec_FileStat, HS.
  cbn [fst snd world trace].
  destruct (String.eqb (Name fileStat) "") eqn:HN.
  { apply String.eqb_eq in HN. list_new_entries. split.
    - intros [s Hs]. rewrite HN in Hs. destruct s; discriminate Hs.
    - cbn [fmap list_fmap kind_of]. intros H.
      apply elem_of_cons in H as [H|H]; [discriminate H|].
      now apply elem_of_nil in H. }
  destruct (String.eqb (filepath.Ext (Name fileStat)) ".mp4") eqn:HE;
    cbn [negb].
  2:{ apply String.eqb_neq in HE. list_new_entries. split.
      - intros Hs. apply Ext_mp4_iff in Hs. contradiction.
      - cbn [fmap list_fmap kind_of]. intros H.
        apply elem_of_cons in H as [H|H]; [discriminate H|].
        now apply elem_of_nil in H. }
  apply String.eqb_eq, Ext_mp4_iff in HE.
  split; [intros _ | intros _; exact HE]. clear HE HN.
  assert (Hin : forall (es : list Entry) r,
             KNewObjectID
             ∈ kind_of <$> Called (CFileStat (common.File req)) (Ok fileStat)
                           :: Called CNewObjectID r :: es).
  { intros es r. cbn [fmap list_fmap kind_of].
    apply list_elem_of_further, list_elem_of_here. }
  run_call; [|list_new_entries; apply Hin].
  run_call; [|list_new_entries; apply Hin].
  run_call; [|list_new_entries; apply Hin].
  rewrite defer_run.
  run_call; [|list_new_entries; apply Hin].
  rewrite defer_run.
  run_call; [|list_new_entries; apply Hin].
  run_call; [|list_new_entries; apply Hin].
  run_call; [|list_new_entries; apply Hin].
  run_call; [|list_new_entries; apply Hin].
  run_publish; [|list_new_entries; apply Hin].
  run_call; [|list_new_entries; apply Hin].
  run_call; [|list_new_entries; apply Hin].
  unfold ret. list_new_entries. apply Hin.
Qed.

(** X12: what a successful submission has done.  The upload passed
    validation; one ObjectID was taken from the generator and its hex
    form is the identifier; the folder was made, the file created,
    filled from the opened upload and closed; video, scene name and
    training configuration (built from the request) were written to the
    store in that order, each on top of the one before; the job was
    published with the same video and configuration; the user was fetched
    from the store after those writes and written back with the scene
    added; nothing was logged. *)
Theorem HandleIncomingVideo_success_effects userID req st jobID :
  (HandleIncomingVideo userID req st).1 = Ok jobID ->
  let w := world st in
  let w' := world (HandleIncomingVideo userID req st).2 in
  let videoFilePath := videosFolder ++ "/" ++ jobID ++ ".mp4" in
  let video := scene.mkVideo videoFilePath in
  let config :=
    scene.mkTrainingConfig
      (scene.mkNerfTrainingConfig
         (common.TrainingMode req) (common.OutputTypes req)
         (common.SaveIterations req) (common.TotalIterations req)) in
  exists fileStat oid fs1 dst fs2 src written fs3 closed db1 db2 db3 u,
    common.Stat (common.File req) = Ok fileStat
    /\ filepath.Ext (Name fileStat) = ".mp4"
    /\ NewObjectID (w_gen w) = (oid, w_gen w')
    /\ jobID = Hex oid
    /\ os_MkdirAll videosFolder ModePerm (w_fs w) = (None, fs1)
    /\ os_Create videoFilePath fs1 = (Ok dst, fs2)
    /\ common.Open (common.File req) = Ok src
    /\ io_Copy dst src fs2 = (Ok written, fs3)
    /\ file_Close dst fs3 = (closed, w_fs w')
    /\ SetVideo jobID video (w_db w) = (None, db1)
    /\ SetSceneName jobID (common.SceneName req) db1 = (None, db2)
    /\ SetTrainingConfig jobID config db2 = (None, db3)
    /\ PublishSfmJob jobID video config (w_mq w) = (None, w_mq w')
    /\ GetUserByID userID db3 = Ok u
    /\ UpdateUser (AddScene u jobID) db3 = (None, w_db w')
    /\ w_rt w' = w_rt w
    /\ w_log w' = w_log w.
Proof.
  unfold HandleIncomingVideo.
  rewrite bind_run. unfold wrap_error. rewrite call_run, exec_FileStat.
  cbn [fst snd world trace].
  destruct (common.Stat (common.File req)) as [fileStat|e] eqn:HS;
    [|refuse].
  destruct (String.eqb (Name fileStat) "") eqn:HN; [refuse|].
  destruct (negb (String.eqb (filepath.Ext (Name fileStat)) ".mp4")) eqn:HE;
    [refuse|].
  run_call; [|refuse]. open_exec.
  run_call; [|refuse]. open_exec.
  run_call; [|refuse]. open_exec.
  rewrite defer_run.
  run_call; [|refuse]. open_exec.
  rewrite defer_run.
  run_call; [|refuse]. open_exec.
  run_call; [|refuse]. open_exec.
  run_call; [|refuse]. open_exec.
  run_call; [|refuse]. open_exec.
  run_publish; [|refuse]. open_exec.
  run_call; [|refuse]. open_exec.
  run_call; [|refuse]. open_exec.
  unfold ret. cbn [fst snd world trace].
  intros [= <-]. cbv zeta.
  rewrite (Join_video _ (Hex_plain _)) in *. unfold video_path in *.
  cbn [exec fst snd]. unfold on_fs, errw.
  cbn [w_fs w_db w_mq w_gen w_rt w_log].
  match goal with
  | |- context [file_Close ?d ?f] =>
      destruct (file_Close d f) as [closed fs4] eqn:Hclose
  end.
  cbn [fst snd w_fs w_db w_mq w_gen w_rt w_log].
  apply negb_false_iff, String.eqb_eq in HE.
  do 13 eexists.
  repeat match goal with |- _ /\ _ => split end;
    try eassumption; try reflexivity.
Qed.

(** X13: the store, the queue and the log are first touched by
    [SetVideo]: a submission in which [SetVideo] was not called (it was
    refused, or storing the file failed) returns an error and leaves all
    three exactly as they were. *)
Theorem HandleIncomingVideo_store_untouched_before_SetVideo userID req st :
  Forall (fun e => kind_of e <> KSetVideo)
    (new_entries st (HandleIncomingVideo userID req st).2) ->
  db_mq_log (world (HandleIncomingVideo userID req st).2)
  = db_mq_log (world st)
  /\ exists e, (HandleIncomingVideo userID req st).1 = Err e.
Proof.
  assert (Hno : forall (a b c d f g h : Entry) (es : list Entry) P,
             kind_of h = KSetVideo ->
             Forall (fun e => kind_of e <> KSetVideo)
               (a :: b :: c :: d :: f :: g :: h :: es) -> P).
  { intros a b c d f g h es P Hk HF.
    do 6 (apply Forall_cons_1 in HF as [_ HF]).
    apply Forall_cons_1 in HF as [HF _]. contradiction. }
  unfold HandleIncomingVideo.
  rewrite bind_run. unfold wrap_error. rewrite call_run, exec_FileStat.
  cbn [fst snd world trace].
  destruct (common.Stat (common.File req)) as [fileStat|e];
    [|intros _; split; [reflexivity | eexists; reflexivity]].
  destruct (String.eqb (Name fileStat) "");
    [intros _; split; [reflexivity | eexists; reflexivity]|].
  destruct (negb (String.eqb (filepath.Ext (Name fileStat)) ".mp4"));
    [intros _; split; [reflexivity | eexists; reflexivity]|].
  run_call;
    [|intros _; split; [|eexists; reflexivity]; cbn [fst snd world];
      unroll_worlds; now rewrite ?exec_storage_frame by reflexivity].
  run_call;
    [|intros _; split; [|eexists; reflexivity]; cbn [fst snd world];
      unroll_worlds; now rewrite ?exec_storage_frame by reflexivity].
  run_call;
    [|intros _; split; [|eexists; reflexivity]; cbn [fst snd world];
      unroll_worlds; now rewrite ?exec_storage_frame by reflexivity].
  rewrite defer_run.
  run_call;
    [|intros _; split; [|eexists; reflexivity]; cbn [fst snd world];
      unroll_worlds; now rewrite ?exec_storage_frame by reflexivity].
  rewrite defer_run.
  run_call;
    [|intros _; split; [|eexists; reflexivity]; cbn [fst snd world];
      unroll_worlds; now rewrite ?exec_storage_frame by reflexivity].
  run_call; [|list_new_entries; apply Hno; reflexivity].
  run_call; [|list_new_entries; apply Hno; reflexivity].
  run_call; [|list_new_entries; apply Hno; reflexivity].
  run_publish; [|list_new_entries; apply Hno; reflexivity].
  run_call; [|list_new_entries; apply Hno; reflexivity].
  run_call; [|list_new_entries; apply Hno; reflexivity].
  unfold ret. list_new_entries. apply Hno; reflexivity.
Qed.

(** Membership of a failed publish in a list of entries, entry by
    entry. *)
Ltac find_failed_publish H :=
  repeat (apply elem_of_cons in H as [H|H];
          [first [ apply (f_equal kind_of) in H; discriminate H
                 | apply (f_equal entry_error) in H; discriminate H
                 | idtac ]
          |]);
  try (apply elem_of_nil in H; contradiction).

(** X14: when the publish call fails, its error is the one returned;
    the failure is logged once, as "Failed to publish SFM job: %v" with
    that error; and the user is neither fetched nor updated. *)
Theorem HandleIncomingVideo_publish_failure userID req st
    jobID video config e :
  Called (CPublishSfmJob jobID video config) (Err e)
    ∈ new_entries st (HandleIncomingVideo userID req st).2 ->
  (HandleIncomingVideo userID req st).1 = Err e
  /\ w_log (world (HandleIncomingVideo userID req st).2)
     = (w_log (world st) ++ [("Failed to publish SFM job: %v", e)])%list
  /\ Forall (fun en => kind_of en <> KGetUserByID /\ kind_of en <> KUpdateUser)
       (new_entries st (HandleIncomingVideo userID req st).2).
Proof.
  unfold HandleIncomingVideo.
  rewrite bind_run. unfold wrap_error. rewrite call_run, exec_FileStat.
  cbn [fst snd world trace].
  destruct (common.Stat (common.File req)) as [fileStat|e0];
    [|list_new_entries; intros H; find_failed_publish H].
  destruct (String.eqb (Name fileStat) "");
    [list_new_entries; intros H; find_failed_publish H|].
  destruct (negb (String.eqb (filepath.Ext (Name fileStat)) ".mp4"));
    [list_new_entries; intros H; find_failed_publish H|].
  run_call; [|list_new_entries; intros H; find_failed_publish H].
  run_call; [|list_new_entries; intros H; find_failed_publish H].
  run_call; [|list_new_entries; intros H; find_failed_publish H].
  rewrite defer_run.
  run_call; [|list_new_entries; intros H; find_failed_publish H].
  rewrite defer_run.
  run_call; [|list_new_entries; intros H; find_failed_publish H].
  run_call; [|list_new_entries; intros H; find_failed_publish H].
  run_call; [|list_new_entries; intros H; find_failed_publish H].
  run_call; [|list_new_entries; intros H; find_failed_publish H].
  run_publish.
  - run_call; [|list_new_entries; intros H; find_failed_publish H].
    run_call; [|list_new_entries; intros H; find_failed_publish H].
    list_new_entries; intros H; find_failed_publish H.
  - list_new_entries. intros H. find_failed_publish H.
    apply (f_equal entry_error) in H. cbn [entry_error result_error] in H.
    injection H as ->.
    split; [reflexivity|]. split.
    + cbn [world]. unroll_worlds. rewrite !exec_log. cbn [logged].
      now rewrite ?app_nil_r.
    + repeat constructor; discriminate.
Qed.

End SubmissionOutcomes.

(** * The credential gateway *)

Section CredentialProperties.

Context `{Cred : Credentials}.

(** X15: the string a successful login returns identifies the user: it
    is the hex form of the ObjectID of the user found under the name,
    whose password check passed; two logins that return the same string
    are logins of users with the same ObjectID. *)
Theorem LoginUser_identifies username1 password1 db1
    username2 password2 db2 id :
  LoginUser username1 password1 db1 = Ok id ->
  LoginUser username2 password2 db2 = Ok id ->
  exists user1 user2,
    GetUserByUsername username1 db1 = Ok user1
    /\ CheckPassword user1 password1 = None
    /\ GetUserByUsername username2 db2 = Ok user2
    /\ CheckPassword user2 password2 = None
    /\ id = Hex (UserID user1)
    /\ UserID user1 = UserID user2.
Proof.
  unfold LoginUser.
  destruct (GetUserByUsername username1 db1) as [user1|e1]; [|discriminate].
  destruct (CheckPassword user1 password1) as [e1|] eqn:P1; [discriminate|].
  destruct (GetUserByUsername username2 db2) as [user2|e2]; [|discriminate].
  destruct (CheckPassword user2 password2) as [e2|] eqn:P2; [discriminate|].
  intros [= <-] [= H2]. exists user1, user2.
  repeat split; try assumption. symmetry. now apply Hex_inj.
Qed.

End CredentialProperties.

(** * The further properties on the in-memory environment *)

Lemma GetNerfMetadata_missing_file_witness :
  exists metadata inner,
    (GetNerfMetadata (Env := Mem.env) Mem.alice Mem.garden "" Mem.state0).1
    = Ok metadata
    /\ Resources metadata !! "splat_cloud" = Some inner
    /\ inner !! "30000" = Some (mkResourceInfo false 0 0 0).
Proof.
  apply (GetNerfMetadata_missing_file (Env := Mem.env) Mem.alice Mem.garden ""
           Mem.state0 Mem.garden_nerf Mem.garden_config "splat_cloud" "30000"
           "data/nerf/garden/splat_30000.ply"
           (ErrExternal "no such file or directory")).
  - reflexivity.
  - reflexivity.
  - reflexivity.
  - apply list_elem_of_here.
  - reflexivity.
  - reflexivity.
  - reflexivity.
Defined.

Lemma GetNerfMetadata_entries_registered_witness :
  exists nerf config path,
    GetNerf (Collaborators := Mem.env) Mem.garden (w_db (world Mem.state0))
    = Ok nerf
    /\ GetTrainingConfig (Collaborators := Mem.env) Mem.garden
         (w_db (world Mem.state0)) = Ok config
    /\ "video" ∈ scene.OutputTypes (scene.nerfTrainingConfig config)
    /\ ("" = "" \/ "" = "video")
    /\ GetFilePathsForOutputType (Collaborators := Mem.env) nerf "video"
         !! "7000" = Some path
    /\ mkResourceInfo true 0 0 1048576
       = probe (Env := Mem.env) (w_fs (world Mem.state0)) path.
Proof.
  pose (metadata :=
          mkNerfMetadata
            (collect (Env := Mem.env) Mem.files0 Mem.garden_nerf ""
               ["splat_cloud"; "video"] ∅)).
  pose (inner :=
          probe (Env := Mem.env) Mem.files0
            <$> ({[ "7000" := "data/nerf/garden/video_7000.mp4" ]}
                 : gmap string string)).
  apply (GetNerfMetadata_entries_registered (Env := Mem.env) Mem.alice
           Mem.garden "" Mem.state0 metadata "video" inner "7000").
  - rewrite (proj1 (GetNerfMetadata_run (Env := Mem.env) Mem.alice Mem.garden
                      "" Mem.state0)).
    reflexivity.
  - reflexivity.
  - reflexivity.
Defined.

Lemma GetNerfMetadata_registry_unavailable_witness :
  GetNerfMetadata (Env := Mem.env) Mem.alice MemCases.meadow ""
    MemCases.state_partial =
    (Err Mem.not_found,
     mkState (world MemCases.state_partial)
       (trace MemCases.state_partial ++
          [Called (CUserHasJobAccess Mem.alice MemCases.meadow) (Ok true);
           Called (CGetNerf MemCases.meadow) (Err Mem.not_found)])).
Proof.
  apply (GetNerfMetadata_registry_unavailable (Env := Mem.env)).
  - reflexivity.
  - reflexivity.
Defined.

Lemma GetNerfMetadata_config_unavailable_witness :
  GetNerfMetadata (Env := Mem.env) Mem.alice MemCases.orchard ""
    MemCases.state_partial =
    (Err Mem.not_found,
     mkState (world MemCases.state_partial)
       (trace MemCases.state_partial ++
          [Called (CUserHasJobAccess Mem.alice MemCases.orchard) (Ok true);
           Called (Env := Mem.env) (CGetNerf MemCases.orchard)
             (Ok Mem.garden_nerf);
           Called (CGetTrainingConfig MemCases.orchard) (Err Mem.not_found)])).
Proof.
  apply (GetNerfMetadata_config_unavailable (Env := Mem.env)).
  - reflexivity.
  - reflexivity.
  - reflexivity.
Defined.

Lemma GetNerfMetadata_reads_only_witness :
  exists stats,
    new_entries Mem.state0
      (GetNerfMetadata (Env := Mem.env) Mem.alice Mem.garden "video"
         Mem.state0).2
    = ([Called (CUserHasJobAccess Mem.alice Mem.garden) (Ok true);
        Called (Env := Mem.env) (CGetNerf Mem.garden) (Ok Mem.garden_nerf);
        Called (CGetTrainingConfig Mem.garden) (Ok Mem.garden_config)]
       ++ stats)%list
    /\ Forall (registered_stat (Env := Mem.env) (w_fs (world Mem.state0))
                 Mem.garden_nerf "video" ["splat_cloud"; "video"]) stats
    /\ same_stores (world Mem.state0)
         (world (GetNerfMetadata (Env := Mem.env) Mem.alice Mem.garden "video"
                   Mem.state0).2).
Proof.
  apply (GetNerfMetadata_reads_only (Env := Mem.env) Mem.alice Mem.garden
           "video" Mem.state0 Mem.garden_nerf Mem.garden_config).
  - reflexivity.
  - reflexivity.
  - reflexivity.
Defined.

Lemma GetNerfMetadata_filter_selects_witness :
  let filtered :=
    mkNerfMetadata
      (collect (Env := Mem.env) Mem.files0 Mem.garden_nerf "video"
         ["splat_cloud"; "video"] ∅) in
  let everything :=
    mkNerfMetadata
      (collect (Env := Mem.env) Mem.files0 Mem.garden_nerf ""
         ["splat_cloud"; "video"] ∅) in
  Resources filtered !! "video" = Resources everything !! "video"
  /\ forall ot, ot <> "video" -> Resources filtered !! ot = None.
Proof.
  intros filtered everything.
  apply (GetNerfMetadata_filter_selects (Env := Mem.env) Mem.alice Mem.garden
           "video" Mem.state0 filtered everything).
  - discriminate.
  - rewrite (proj1 (GetNerfMetadata_run (Env := Mem.env) Mem.alice Mem.garden
                      "video" Mem.state0)).
    reflexivity.
  - rewrite (proj1 (GetNerfMetadata_run (Env := Mem.env) Mem.alice Mem.garden
                      "" Mem.state0)).
    reflexivity.
Defined.

Lemma GetNerfMetadata_declared_as_set_witness :
  (GetNerfMetadata (Env := Mem.env) Mem.alice Mem.garden ""
     MemCases.state_again).1
  = (GetNerfMetadata (Env := Mem.env) Mem.alice Mem.garden "" Mem.state0).1.
Proof.
  apply (GetNerfMetadata_declared_as_set (Env := Mem.env) Mem.alice Mem.garden
           "" Mem.state0 MemCases.state_again Mem.garden_nerf
           Mem.garden_config MemCases.garden_config_again).
  - reflexivity.
  - reflexivity.
  - reflexivity.
  - reflexivity.
  - reflexivity.
  - reflexivity.
  - reflexivity.
  - intros ot. cbn [scene.OutputTypes scene.nerfTrainingConfig
                     Mem.garden_config MemCases.garden_config_again].
    rewrite !elem_of_cons, elem_of_nil. tauto.
Defined.

Lemma HandleIncomingVideo_stat_failure_witness :
  HandleIncomingVideo (Env := Mem.env) Mem.alice MemCases.request_unreadable
    Mem.state0 =
    (Err (Wrapf "failed to get file stats" (ErrExternal "bad file descriptor")),
     mkState (world Mem.state0)
       (trace Mem.state0 ++
          [Called (CFileStat (common.File MemCases.request_unreadable))
             (Err (ErrExternal "bad file descriptor"))])).
Proof.
  apply (HandleIncomingVideo_stat_failure (Env := Mem.env)). reflexivity.
Defined.

Lemma HandleIncomingVideo_accepts_mp4_names_witness :
  (exists s, "clip.MP4" = s ++ ".mp4")
  <-> KNewObjectID
      ∈ kind_of
        <$> new_entries Mem.state0
              (HandleIncomingVideo (Env := Mem.env) Mem.alice
                 (Mem.request "clip.MP4") Mem.state0).2.
Proof.
  apply (HandleIncomingVideo_accepts_mp4_names (Env := Mem.env) Mem.alice
           (Mem.request "clip.MP4") Mem.state0 (mkFileInfo "clip.MP4" 3)).
  reflexivity.
Defined.

Lemma HandleIncomingVideo_success_effects_witness :
  let jobID := "000000000000000000000064" in
  let w := world Mem.state0 in
  let w' :=
    world (HandleIncomingVideo (Env := Mem.env) Mem.alice
             (Mem.request "clip.mp4") Mem.state0).2 in
  let videoFilePath := videosFolder ++ "/" ++ jobID ++ ".mp4" in
  let video := scene.mkVideo videoFilePath in
  let config :=
    scene.mkTrainingConfig
      (scene.mkNerfTrainingConfig "gaussian" ["splat_cloud"] [7000] 30000) in
  exists fileStat oid fs1 dst fs2 src written fs3 closed db1 db2 db3 u,
    common.Stat (common.File (Mem.request "clip.mp4")) = Ok fileStat
    /\ filepath.Ext (Name fileStat) = ".mp4"
    /\ NewObjectID (Collaborators := Mem.env) (w_gen w) = (oid, w_gen w')
    /\ jobID = Hex oid
    /\ os_MkdirAll (Collaborators := Mem.env) videosFolder ModePerm (w_fs w)
       = (None, fs1)
    /\ os_Create (Collaborators := Mem.env) videoFilePath fs1 = (Ok dst, fs2)
    /\ common.Open (common.File (Mem.request "clip.mp4")) = Ok src
    /\ io_Copy (Collaborators := Mem.env) dst src fs2 = (Ok written, fs3)
    /\ file_Close (Collaborators := Mem.env) dst fs3 = (closed, w_fs w')
    /\ SetVideo (Collaborators := Mem.env) jobID video (w_db w) = (None, db1)
    /\ SetSceneName (Collaborators := Mem.env) jobID "garden" db1 = (None, db2)
    /\ SetTrainingConfig (Collaborators := Mem.env) jobID config db2
       = (None, db3)
    /\ PublishSfmJob (Collaborators := Mem.env) jobID video config (w_mq w)
       = (None, w_mq w')
    /\ GetUserByID (Collaborators := Mem.env) Mem.alice db3 = Ok u
    /\ UpdateUser (Collaborators := Mem.env)
         (AddScene (Collaborators := Mem.env) u jobID) db3 = (None, w_db w')
    /\ w_rt w' = w_rt w
    /\ w_log w' = w_log w.
Proof.
  apply (HandleIncomingVideo_success_effects (Env := Mem.env) Mem.alice
           (Mem.request "clip.mp4") Mem.state0 "000000000000000000000064").
  reflexivity.
Defined.

Lemma HandleIncomingVideo_store_untouched_before_SetVideo_witness :
  let run :=
    HandleIncomingVideo (Env := Mem.env) Mem.alice (Mem.request "clip.mp4")
      MemCases.state_read_only in
  db_mq_log (world run.2) = db_mq_log (world MemCases.state_read_only)
  /\ exists e, run.1 = Err e.
Proof.
  apply (HandleIncomingVideo_store_untouched_before_SetVideo (Env := Mem.env)).
  assert (E : new_entries MemCases.state_read_only
                (HandleIncomingVideo (Env := Mem.env) Mem.alice
                   (Mem.request "clip.mp4") MemCases.state_read_only).2
              = [Called (CFileStat (Mem.upload "clip.mp4"))
                   (Ok (mkFileInfo "clip.mp4" 3));
                 Called (Env := Mem.env) CNewObjectID (Ok (Mem.be_bytes 12 100));
                 Called (CMkdirAll videosFolder ModePerm)
                   (Err (ErrExternal "read-only file system"))])
    by reflexivity.
  rewrite E. repeat constructor; discriminate.
Defined.

Lemma HandleIncomingVideo_publish_failure_witness :
  let run :=
    HandleIncomingVideo (Env := Mem.env) Mem.alice (Mem.request "clip.mp4")
      MemCases.state_queue_closed in
  let e := ErrExternal "channel closed" in
  run.1 = Err e
  /\ w_log (world run.2)
     = (w_log (world MemCases.state_queue_closed)
          ++ [("Failed to publish SFM job: %v", e)])%list
  /\ Forall (fun en => kind_of en <> KGetUserByID /\ kind_of en <> KUpdateUser)
       (new_entries MemCases.state_queue_closed run.2).
Proof.
  pose (jobID := "000000000000000000000064").
  pose (video := scene.mkVideo "data/raw/videos/000000000000000000000064.mp4").
  pose (config :=
          scene.mkTrainingConfig
            (scene.mkNerfTrainingConfig "gaussian" ["splat_cloud"] [7000]
               30000)).
  pose (dst := (video_path jobID : @OsFile Mem.env)).
  apply (HandleIncomingVideo_publish_failure (Env := Mem.env) Mem.alice
           (Mem.request "clip.mp4") MemCases.state_queue_closed
           jobID video config).
  assert (E : new_entries MemCases.state_queue_closed
                (HandleIncomingVideo (Env := Mem.env) Mem.alice
                   (Mem.request "clip.mp4") MemCases.state_queue_closed).2
              = [Called (CFileStat (Mem.upload "clip.mp4"))
                   (Ok (mkFileInfo "clip.mp4" 3));
                 Called (Env := Mem.env) CNewObjectID (Ok (Mem.be_bytes 12 100));
                 Called (CMkdirAll videosFolder ModePerm) (Ok tt);
                 Called (Env := Mem.env) (CCreate (video_path jobID)) (Ok dst);
                 Called (CFileOpen (Mem.upload "clip.mp4"))
                   (Ok [Byte.x01; Byte.x02; Byte.x03]);
                 Called (Env := Mem.env)
                   (CCopy dst [Byte.x01; Byte.x02; Byte.x03])
                   (Ok 3);
                 Called (CSetVideo jobID video) (Ok tt);
                 Called (CSetSceneName jobID "garden") (Ok tt);
                 Called (CSetTrainingConfig jobID config) (Ok tt);
                 Called (CPublishSfmJob jobID video config)
                   (Err (ErrExternal "channel closed"));
                 Called (CLogErrorf "Failed to publish SFM job: %v"
                           (ErrExternal "channel closed")) (Ok tt);
                 Called (CSrcClose [Byte.x01; Byte.x02; Byte.x03]) (Ok tt);
                 Called (Env := Mem.env) (CDstClose dst) (Ok tt)])
    by reflexivity.
  rewrite E. do 9 apply list_elem_of_further. apply list_elem_of_here.
Defined.

Lemma LoginUser_identifies_witness :
  exists user1 user2,
    GetUserByUsername (Credentials := MemCases.credentials) "alice" Mem.store0
    = Ok user1
    /\ CheckPassword (Credentials := MemCases.credentials) user1 "wonderland"
       = None
    /\ GetUserByUsername (Credentials := MemCases.credentials) "alice"
         MemCases.store_partial = Ok user2
    /\ CheckPassword (Credentials := MemCases.credentials) user2 "wonderland"
       = None
    /\ "000000000000000000000001"
       = Hex (UserID (Credentials := MemCases.credentials) user1)
    /\ UserID (Credentials := MemCases.credentials) user1
       = UserID (Credentials := MemCases.credentials) user2.
Proof.
  apply (LoginUser_identifies (Cred := MemCases.credentials)
           "alice" "wonderland" Mem.store0
           "alice" "wonderland" MemCases.store_partial
           "000000000000000000000001").
  - reflexivity.
  - reflexivity.
Defined.

(** * An unknown user, and the shape of identifiers *)

Lemma Hex_length id : String.length (Hex id) = (2 * length id)%nat.
Proof.
  induction id as [|b id IH]; [reflexivity|].
  change (Hex (b :: id)) with (hex_byte b (Hex id)).
  unfold hex_byte. cbn [String.length length]. rewrite IH. lia.
Qed.

Section SubmissionOrphans.

Context `{Env : Collaborators}.

Arguments filepath.Join : simpl never.
Arguments filepath.Clean : simpl never.

Ltac run_call :=
  rewrite bind_call;
  match goal with
  | |- context [match exec ?c ?w with _ => _ end] =>
      destruct (exec c w) as [[?|?] ?] eqn:?
  end;
  cbn [world trace fst snd] in *.

Ltac run_publish :=
  rewrite bind_publish;
  match goal with
  | |- context [match exec ?c ?w with _ => _ end] =>
      destruct (exec c w) as [[?|?] ?] eqn:?
  end;
  cbn [world trace fst snd] in *.

Ltac list_new_entries :=
  unfold new_entries, fail, ret in *; cbn [fst snd trace] in *;
  rewrite <- ?app_assoc in *; cbn [app] in *;
  rewrite ?drop_app_length in *.



(** X17: the identifier of a successful submission has two characters
    for each byte of the generated ObjectID and contains neither a path
    separator nor a dot. *)
Theorem HandleIncomingVideo_job_identifier_shape userID req st jobID :
  (HandleIncomingVideo userID req st).1 = Ok jobID ->
  String.length jobID
  = (2 * length (NewObjectID (w_gen (world st))).1)%nat
  /\ plain jobID = true.
Proof.
  intros H.
  destruct (HandleIncomingVideo userID req st) as [r st'] eqn:R.
  cbn [fst] in H. subst r.
  apply HandleIncomingVideo_success in R
    as (_ & _ & _ & _ & _ & _ & -> & _ & _).
  split; [apply Hex_length | apply Hex_plain].
Qed.

End SubmissionOrphans.


Lemma HandleIncomingVideo_job_identifier_shape_witness :
  String.length "000000000000000000000064" = (2 * 12)%nat
  /\ plain "000000000000000000000064" = true.
Proof.
  apply (HandleIncomingVideo_job_identifier_shape (Env := Mem.env) Mem.alice
           (Mem.request "clip.mp4") Mem.state0 "000000000000000000000064").
  reflexivity.
Defined.
